(** * panko: a minimal X11 window manager, shallow embedding

    Both event loops of the repository are modelled: the self-contained
    loop of [src/main.rs] (module [MainRs]) and [Manager::run] with its
    helpers of [src/manager.rs] (module [ManagerRs]).

    The display connection is modelled as libxcb manages it: requests are
    appended to an output buffer with consecutive sequence numbers,
    [flush] writes the buffer out, and waiting for the reply of a request
    that is still buffered first writes the whole buffer out
    ([_xcb_out_flush_to]).  Every interaction is recorded in a trace.
    Replies come from a server oracle [Server]. *)

From stdpp Require Import base gmap list.
From Stdlib Require Import ZArith Lia.

Local Open Scope Z_scope.

(** ** X protocol values *)

(** [XCB_NONE]: the null resource id, [Xid::is_none]. *)
Definition NONE : Z := 0.

(** [x::CURRENT_TIME] and the other constant request fields (owner_events,
    grab modes, cursor, time) are the same at every call site and are left
    out of the requests below. *)

Definition BORDER_WIDTH : Z := 2.

(** [x::GRAB_ANY], [x::ButtonIndex::N1] / [N3], and the [x::ModMask]
    bits used by the grabs: [ModMask::N4], [ModMask::ANY] and the empty
    mask. *)
Definition GRAB_ANY : Z := 0.
Definition BUTTON_INDEX_N1 : Z := 1.
Definition BUTTON_INDEX_N3 : Z := 3.
Definition MOD_MASK_N4 : Z := 64.
Definition MOD_MASK_ANY : Z := 32768.
Definition MOD_MASK_EMPTY : Z := 0.

(** Rust [i16] subtraction, wrapping as in a release build. *)
Definition wrap_i16 (z : Z) : Z := (z + 32768) mod 65536 - 32768.

Inductive StackMode := Above.

Inductive ConfigWindow :=
| CfgX (v : Z)
| CfgY (v : Z)
| CfgWidth (v : Z)
| CfgHeight (v : Z)
| CfgBorderWidth (v : Z)
| CfgStackMode (m : StackMode).

Inductive EventMask :=
| EM_SUBSTRUCTURE_REDIRECT | EM_STRUCTURE_NOTIFY | EM_SUBSTRUCTURE_NOTIFY
| EM_PROPERTY_CHANGE | EM_ENTER_WINDOW | EM_FOCUS_CHANGE
| EM_BUTTON_PRESS | EM_BUTTON_RELEASE | EM_BUTTON_MOTION | EM_POINTER_MOTION_HINT.

Inductive Cw :=
| CwEventMask (m : list EventMask)
| CwBorderPixel (p : Z).

Inductive InputFocus := PointerRoot.

Inductive Request :=
| ConfigureWindow (window : Z) (value_list : list ConfigWindow)
| ChangeWindowAttributes (window : Z) (value_list : list Cw)
| MapWindow (window : Z)
| GrabPointer (grab_window : Z) (event_mask : list EventMask) (confine_to : Z)
| UngrabPointer
| SetInputFocus (revert_to : InputFocus) (focus : Z)
| UngrabKey (key : Z) (grab_window : Z) (modifiers : Z)
| GrabButton (grab_window : Z) (event_mask : list EventMask) (confine_to : Z)
             (button : Z) (modifiers : Z)
| QueryTree (window : Z)
| GetWindowAttributes (window : Z)
| GetGeometry (drawable : Z)
| QueryPointer (window : Z).

(** Requests that have a reply; all others are commands. *)
Definition is_query (r : Request) : bool :=
  match r with
  | QueryTree _ | GetWindowAttributes _ | GetGeometry _ | QueryPointer _ => true
  | _ => false
  end.

(** Replies: [i16] coordinates, [u16] sizes. *)
Record Geometry := { geo_x : Z; geo_y : Z; geo_width : Z; geo_height : Z }.
Record PointerReply := { root_x : Z; root_y : Z }.
Inductive MapState := Unmapped | Unviewable | Viewable.
Record WindowAttributes := { map_state : MapState; override_redirect : bool }.

Definition map_state_eqb (a b : MapState) : bool :=
  match a, b with
  | Unmapped, Unmapped | Unviewable, Unviewable | Viewable, Viewable => true
  | _, _ => false
  end.

Inductive XError := ConnectionError | ProtocolError.

Inductive result (A : Type) :=
| Ok (a : A)
| Err (e : XError).
Arguments Ok {A} a.
Arguments Err {A} e.

(** The server as the manager sees it: the reply to each query, and
    whether the connection accepts writes. *)
Record Server := {
  sv_tree : Z -> result (list Z);
  sv_attrs : Z -> result WindowAttributes;
  sv_geometry : Z -> result Geometry;
  sv_pointer : Z -> result PointerReply;
  sv_flush_ok : bool
}.

(** ** Events *)

Inductive Event :=
| CreateNotify (window : Z)
| DestroyNotify (window : Z)
| MapRequest (window : Z)
| ButtonPress (detail : Z) (state : Z) (child : Z) (ev_root_x ev_root_y : Z)
| ButtonRelease (child : Z)
| MotionNotify
| EnterNotify (event : Z)
| FocusIn (event : Z)
| FocusOut (event : Z)
| ConfigureRequest
| ConfigureNotify
| MapNotify
| UnmapNotify
| MappingNotify
| ClientMessage
| OtherEvent.

(** ** Connection and manager state *)

Inductive Act :=
| ASend (checked : bool) (seq : Z) (r : Request)
| AFlush
| AWaitReply (seq : Z)
(** [wait_for_event]; records whether the output buffer was empty. *)
| AWaitEvent (buffer_empty : bool).

Record Conn := {
  out_buf : list (Z * Request);
  next_seq : Z;
  trace : list Act
}.

Record Screen := { root : Z; width_in_pixels : Z; height_in_pixels : Z }.

(** [crate::window::Window] *)
Record Window := { x_window : Z }.

Inductive DragButton := Left | Right.

Record DragState := { button : DragButton; window : Z; off_x : Z; off_y : Z }.

Record Manager := {
  conn : Conn;
  screen : Screen;
  windows : gmap Z Window;
  drag_state : option DragState
}.

Definition set_conn (m : Manager) (c : Conn) : Manager :=
  {| conn := c; screen := screen m; windows := windows m; drag_state := drag_state m |}.
Definition set_windows (m : Manager) (ws : gmap Z Window) : Manager :=
  {| conn := conn m; screen := screen m; windows := ws; drag_state := drag_state m |}.
Definition set_drag_state (m : Manager) (d : option DragState) : Manager :=
  {| conn := conn m; screen := screen m; windows := windows m; drag_state := d |}.

(** ** The monad: server reader, manager state, errors ([?]) *)

Definition M (A : Type) := Server -> Manager -> Manager * result A.

Definition ret {A} (a : A) : M A := fun _ m => (m, Ok a).

Definition bind {A B} (c : M A) (k : A -> M B) : M B :=
  fun sv m =>
    match c sv m with
    | (m', Ok a) => k a sv m'
    | (m', Err e) => (m', Err e)
    end.

Notation "'let*' x := c 'in' k" := (bind c (fun x => k))
  (at level 200, x name, c at level 100, k at level 200).

Definition get : M Manager := fun _ m => (m, Ok m).
Definition modify (f : Manager -> Manager) : M unit := fun _ m => (f m, Ok tt).

(** A [Result] caught instead of propagated with [?]. *)
Definition attempt {A} (c : M A) : M (result A) :=
  fun sv m => let (m', r) := c sv m in (m', Ok r).

Definition log (c : Conn) (a : Act) : list Act := trace c ++ [a].

Definition send_request_gen (checked : bool) (r : Request) : M Z :=
  fun _ m =>
    let c := conn m in
    let s := next_seq c in
    (set_conn m {| out_buf := out_buf c ++ [(s, r)]; next_seq := s + 1;
                   trace := log c (ASend checked s r) |}, Ok s).

Definition send_request (r : Request) : M Z := send_request_gen false r.
Definition send_request_checked (r : Request) : M Z := send_request_gen true r.

Definition flush : M unit :=
  fun sv m =>
    let c := conn m in
    if sv_flush_ok sv
    then (set_conn m {| out_buf := []; next_seq := next_seq c;
                        trace := log c AFlush |}, Ok tt)
    else (m, Err ConnectionError).

(** A typed reply cookie. *)
Record Cookie (A : Type) := { ck_seq : Z; ck_reply : Server -> result A }.
Arguments ck_seq {A} c.
Arguments ck_reply {A} c _.

Definition pending (c : Conn) (s : Z) : bool :=
  existsb (fun p => Z.eqb (fst p) s) (out_buf c).

Definition wait_for_reply {A} (ck : Cookie A) : M A :=
  fun sv m =>
    let c := conn m in
    let buf := if pending c (ck_seq ck) then [] else out_buf c in
    (set_conn m {| out_buf := buf; next_seq := next_seq c;
                   trace := log c (AWaitReply (ck_seq ck)) |}, ck_reply ck sv).

Definition wait_for_event : M unit :=
  fun _ m =>
    let c := conn m in
    (set_conn m {| out_buf := out_buf c; next_seq := next_seq c;
                   trace := log c (AWaitEvent (bool_decide (out_buf c = []))) |}, Ok tt).

Definition query_tree (w : Z) : M (Cookie (list Z)) :=
  let* s := send_request (QueryTree w) in
  ret {| ck_seq := s; ck_reply := fun sv => sv_tree sv w |}.

Definition get_window_attributes (w : Z) : M (Cookie WindowAttributes) :=
  let* s := send_request (GetWindowAttributes w) in
  ret {| ck_seq := s; ck_reply := fun sv => sv_attrs sv w |}.

Definition get_geometry (w : Z) : M (Cookie Geometry) :=
  let* s := send_request (GetGeometry w) in
  ret {| ck_seq := s; ck_reply := fun sv => sv_geometry sv w |}.

Definition query_pointer (w : Z) : M (Cookie PointerReply) :=
  let* s := send_request (QueryPointer w) in
  ret {| ck_seq := s; ck_reply := fun sv => sv_pointer sv w |}.

(** The connection libxcb hands out: nothing buffered, the first request
    gets sequence number 1. *)
Definition fresh_conn : Conn := {| out_buf := []; next_seq := 1; trace := [] |}.

(** ** Drag geometry (identical in main.rs and manager.rs) *)

(** The [DragButton::Left] arm of the motion handler: the new origin. *)
Definition move_target (scr : Screen) (drag_state : DragState)
    (pointer : PointerReply) (geometry : Geometry) : Z * Z :=
  let win_width := geo_width geometry + 2 * BORDER_WIDTH in
  let win_height := geo_height geometry + 2 * BORDER_WIDTH in
  let scr_width := width_in_pixels scr in
  let scr_height := height_in_pixels scr in
  let off_x := off_x drag_state in
  let off_y := off_y drag_state in
  let ptr_x := root_x pointer - off_x in
  let ptr_y := root_y pointer - off_y in
  let new_x := if ptr_x <=? 0 then 0
               else if ptr_x + win_width >? scr_width then scr_width - win_width
               else ptr_x in
  let new_y := if ptr_y <=? 0 then 0
               else if ptr_y + win_height >? scr_height then scr_height - win_height
               else ptr_y in
  (new_x, new_y).

(** The [DragButton::Right] arm: the new size. *)
Definition resize_target (pointer : PointerReply) (geometry : Geometry) : Z * Z :=
  let win_x := geo_x geometry in
  let win_y := geo_y geometry in
  let ptr_x := root_x pointer in
  let ptr_y := root_y pointer in
  let new_width := ptr_x - win_x + 1 - BORDER_WIDTH * 2 in
  let new_height := ptr_y - win_y + 1 - BORDER_WIDTH * 2 in
  (new_width, new_height).

(** The [MotionNotify] arm, the same in both loops. *)
Definition on_motion_notify : M unit :=
  let* m := get in
  match drag_state m with
  | None => ret tt
  | Some ds =>
      let* ck := query_pointer (root (screen m)) in
      let* pointer := wait_for_reply ck in
      let* ck' := get_geometry (window ds) in
      let* geometry := wait_for_reply ck' in
      match button ds with
      | Left =>
          let '(new_x, new_y) := move_target (screen m) ds pointer geometry in
          let* _ := send_request_checked
                      (ConfigureWindow (window ds) [CfgX new_x; CfgY new_y]) in
          flush
      | Right =>
          let '(new_width, new_height) := resize_target pointer geometry in
          if (32 <=? new_width) && (32 <=? new_height) then
            let* _ := send_request_checked
                        (ConfigureWindow (window ds) [CfgWidth new_width; CfgHeight new_height]) in
            flush
          else ret tt
      end
  end.

(** The [ButtonRelease] arm, the same in both loops. *)
Definition on_button_release : M unit :=
  let* _ := send_request_checked UngrabPointer in
  let* _ := flush in
  modify (fun m => set_drag_state m None).

(** The drag session recorded on a button press ([match ev.detail()]). *)
Definition drag_for_button (detail child off_x off_y : Z) : option DragState :=
  if Z.eqb detail 1 then
    Some {| button := Left; window := child; off_x := off_x; off_y := off_y |}
  else if Z.eqb detail 3 then
    Some {| button := Right; window := child; off_x := off_x; off_y := off_y |}
  else None.

(** ** src/manager.rs *)
Module ManagerRs.

(** The requests of [Manager::connect] once the screen is known. *)
Definition connect_setup : M unit :=
  let* m := get in
  let root := root (screen m) in
  let* _ := send_request_checked
              (ChangeWindowAttributes root
                 [CwEventMask [EM_SUBSTRUCTURE_REDIRECT; EM_STRUCTURE_NOTIFY;
                               EM_SUBSTRUCTURE_NOTIFY; EM_PROPERTY_CHANGE]]) in
  let* _ := send_request_checked (UngrabKey GRAB_ANY root MOD_MASK_ANY) in
  let* _ := send_request_checked
              (GrabButton root [EM_BUTTON_PRESS] root BUTTON_INDEX_N1 MOD_MASK_EMPTY) in
  let* _ := send_request_checked
              (GrabButton root [EM_BUTTON_PRESS; EM_BUTTON_RELEASE] root
                 BUTTON_INDEX_N1 MOD_MASK_N4) in
  let* _ := send_request_checked
              (GrabButton root [EM_BUTTON_PRESS; EM_BUTTON_RELEASE] root
                 BUTTON_INDEX_N3 MOD_MASK_N4) in
  flush.

(** [Manager::connect].  [established] is the outcome of
    [xcb::Connection::connect(None)]: the roots of the setup and the
    preferred screen number, or the error.  [None] is the panic of
    [.nth(scr_num).unwrap()]. *)
Definition connect (sv : Server) (established : result (list Screen * nat))
    : option (result Manager) :=
  match established with
  | Err e => Some (Err e)
  | Ok (roots, scr_num) =>
      match nth_error roots scr_num with
      | None => None
      | Some scr =>
          let m0 := {| conn := fresh_conn; screen := scr; windows := empty;
                       drag_state := None |} in
          match connect_setup sv m0 with
          | (m, Ok _) => Some (Ok m)
          | (_, Err e) => Some (Err e)
          end
      end
  end.

Definition map_window (w : Z) : M unit :=
  let x := 0 in
  let y := 0 in
  let width := 640 in
  let height := 480 in
  let* _ := send_request_checked
              (ConfigureWindow w [CfgX x; CfgY y; CfgWidth width; CfgHeight height;
                                  CfgBorderWidth BORDER_WIDTH]) in
  let* _ := send_request_checked
              (ChangeWindowAttributes w [CwEventMask [EM_ENTER_WINDOW; EM_FOCUS_CHANGE]]) in
  let* _ := send_request_checked (MapWindow w) in
  ret tt.

Definition bring_window_to_front (w : Z) : M unit :=
  let* _ := send_request_checked (ConfigureWindow w [CfgStackMode Above]) in
  ret tt.

Definition focus_window (w : Z) : M unit :=
  let* _ := send_request_checked (SetInputFocus PointerRoot w) in
  ret tt.

(** [let do_map = match self.conn.wait_for_reply(attr_cookie) { .. }]:
    map the window if its attributes could be read, it is not unmapped and
    it is not override-redirect. *)
Definition attach_do_map (reply : result WindowAttributes) : bool :=
  match reply with
  | Err _ => false
  | Ok attrs =>
      negb (map_state_eqb (map_state attrs) Unmapped) && negb (override_redirect attrs)
  end.

(** The body of [tree.children().iter().for_each(..)]. *)
Definition attach_child (w : Z) : M unit :=
  let* attr_cookie := get_window_attributes w in
  let* reply := attempt (wait_for_reply attr_cookie) in
  let do_map := attach_do_map reply in
  if do_map then
    let* _ := modify (fun m => set_windows m (<[w := {| x_window := w |}]> (windows m))) in
    map_window w
  else ret tt.

Fixpoint attach_children (ws : list Z) : M unit :=
  match ws with
  | [] => ret tt
  | w :: ws' => let* _ := attach_child w in attach_children ws'
  end.

Definition attach_existing_windows : M unit :=
  let* _ := modify (fun m => set_windows m empty) in
  let* m := get in
  let* ck := query_tree (root (screen m)) in
  let* children := wait_for_reply ck in
  let* _ := attach_children children in
  flush.

(** One arm of the [match] in [Manager::run]. *)
Definition handle_event (e : Event) : M unit :=
  match e with
  | CreateNotify w =>
      modify (fun m => set_windows m (<[w := {| x_window := w |}]> (windows m)))
  | DestroyNotify w =>
      modify (fun m => set_windows m (delete w (windows m)))
  | MapRequest w =>
      let* _ := map_window w in flush
  | ButtonPress detail state child rx ry =>
      if Z.eqb state 0 then
        if Z.eqb child NONE then ret tt
        else let* _ := bring_window_to_front child in flush
      else
        if Z.eqb child NONE then ret tt
        else
          let* _ := bring_window_to_front child in
          let* m := get in
          let* _ := send_request
                      (GrabPointer (root (screen m))
                         [EM_BUTTON_RELEASE; EM_BUTTON_MOTION; EM_POINTER_MOTION_HINT]
                         (root (screen m))) in
          let* ck := get_geometry child in
          let* geometry := wait_for_reply ck in
          let off_x := wrap_i16 (rx - geo_x geometry) in
          let off_y := wrap_i16 (ry - geo_y geometry) in
          modify (fun m => set_drag_state m (drag_for_button detail child off_x off_y))
  | ButtonRelease _ => on_button_release
  | MotionNotify => on_motion_notify
  | EnterNotify w =>
      let* _ := focus_window w in flush
  | FocusIn w =>
      let* _ := send_request_checked (ChangeWindowAttributes w [CwBorderPixel 0x0055ff]) in
      flush
  | FocusOut w =>
      let* _ := send_request_checked (ChangeWindowAttributes w [CwBorderPixel 0]) in
      flush
  | ConfigureRequest | ConfigureNotify | MapNotify | UnmapNotify
  | MappingNotify | ClientMessage => ret tt
  | OtherEvent => ret tt
  end.

(** [loop { match self.conn.wait_for_event()? { .. } }] over a finite
    prefix of the event stream. *)
Fixpoint run (es : list Event) : M unit :=
  match es with
  | [] => ret tt
  | e :: es' =>
      let* _ := wait_for_event in
      let* _ := handle_event e in
      run es'
  end.

End ManagerRs.

(** ** src/main.rs *)
Module MainRs.

(** One arm of the [match] in [main]'s loop. *)
Definition handle_event (e : Event) : M unit :=
  match e with
  | MapRequest w =>
      let* _ := send_request_checked (MapWindow w) in
      let* _ := send_request_checked
                  (ConfigureWindow w [CfgX 0; CfgY 0; CfgWidth 640; CfgHeight 480;
                                      CfgBorderWidth BORDER_WIDTH]) in
      let* _ := send_request_checked
                  (ChangeWindowAttributes w [CwEventMask [EM_ENTER_WINDOW; EM_FOCUS_CHANGE]]) in
      flush
  | ButtonPress detail _ child rx ry =>
      if Z.eqb child NONE then ret tt
      else
        let* _ := send_request_checked (ConfigureWindow child [CfgStackMode Above]) in
        let* m := get in
        let* _ := send_request
                    (GrabPointer (root (screen m))
                       [EM_BUTTON_RELEASE; EM_BUTTON_MOTION; EM_POINTER_MOTION_HINT]
                       (root (screen m))) in
        let* geometry_cookie := get_geometry child in
        let* _ := flush in
        let* geometry := wait_for_reply geometry_cookie in
        let off_x := wrap_i16 (rx - geo_x geometry) in
        let off_y := wrap_i16 (ry - geo_y geometry) in
        modify (fun m => set_drag_state m (drag_for_button detail child off_x off_y))
  | ButtonRelease _ => on_button_release
  | MotionNotify => on_motion_notify
  | EnterNotify w =>
      let* _ := send_request_checked (SetInputFocus PointerRoot w) in
      flush
  | _ => ret tt
  end.

Fixpoint run (es : list Event) : M unit :=
  match es with
  | [] => ret tt
  | e :: es' =>
      let* _ := wait_for_event in
      let* _ := handle_event e in
      run es'
  end.

(** The requests [main] issues before its loop. *)
Definition setup : M unit :=
  let* m := get in
  let root := root (screen m) in
  let* _ := send_request_checked
              (ChangeWindowAttributes root
                 [CwEventMask [EM_SUBSTRUCTURE_REDIRECT; EM_STRUCTURE_NOTIFY;
                               EM_SUBSTRUCTURE_NOTIFY; EM_PROPERTY_CHANGE]]) in
  let* _ := send_request_checked (UngrabKey GRAB_ANY root MOD_MASK_ANY) in
  let* _ := send_request_checked
              (GrabButton root [EM_BUTTON_PRESS; EM_BUTTON_RELEASE] root
                 BUTTON_INDEX_N1 MOD_MASK_N4) in
  let* _ := send_request_checked
              (GrabButton root [EM_BUTTON_PRESS; EM_BUTTON_RELEASE] root
                 BUTTON_INDEX_N3 MOD_MASK_N4) in
  flush.

(** [main] over a finite prefix [es] of the event stream: what the
    connection saw and how it ended.  [None] is the panic of
    [.nth(scr_num).unwrap()]; [drag_state] starts as [None], and main.rs
    keeps no registry. *)
Definition main (sv : Server) (established : result (list Screen * nat)) (es : list Event)
    : option (list Act * result unit) :=
  match established with
  | Err e => Some ([], Err e)
  | Ok (roots, scr_num) =>
      match nth_error roots scr_num with
      | None => None
      | Some scr =>
          let m0 := {| conn := fresh_conn; screen := scr; windows := empty;
                       drag_state := None |} in
          let '(m, r) := (let* _ := setup in run es) sv m0 in
          Some (trace (conn m), r)
      end
  end.

End MainRs.

(** ** Observations *)

Definition new_trace (m m' : Manager) : list Act :=
  drop (length (trace (conn m))) (trace (conn m')).

Fixpoint sends (l : list Act) : list Request :=
  match l with
  | [] => []
  | ASend _ _ r :: l' => r :: sends l'
  | _ :: l' => sends l'
  end.

(** The requests issued between two states. *)
Definition sent_requests (m m' : Manager) : list Request := sends (new_trace m m').

(** ** Definitions used by the statements *)

(** How the X server applies a [ConfigureWindow] value list to the
    geometry of the window (the server's side, used to read off the
    window's geometry after a command). *)
Fixpoint apply_configure (g : Geometry) (vl : list ConfigWindow) : Geometry :=
  match vl with
  | [] => g
  | CfgX v :: vl' => apply_configure {| geo_x := v; geo_y := geo_y g;
                       geo_width := geo_width g; geo_height := geo_height g |} vl'
  | CfgY v :: vl' => apply_configure {| geo_x := geo_x g; geo_y := v;
                       geo_width := geo_width g; geo_height := geo_height g |} vl'
  | CfgWidth v :: vl' => apply_configure {| geo_x := geo_x g; geo_y := geo_y g;
                           geo_width := v; geo_height := geo_height g |} vl'
  | CfgHeight v :: vl' => apply_configure {| geo_x := geo_x g; geo_y := geo_y g;
                            geo_width := geo_width g; geo_height := v |} vl'
  | _ :: vl' => apply_configure g vl'
  end.

(** A concrete setting: a 1920x1080 screen with root window 1. *)
Definition demo_screen : Screen :=
  {| root := 1; width_in_pixels := 1920; height_in_pixels := 1080 |}.

Definition demo_manager (d : option DragState) : Manager :=
  {| conn := {| out_buf := []; next_seq := 1; trace := [] |};
     screen := demo_screen; windows := empty; drag_state := d |}.

Definition demo_server (attrs : Z -> result WindowAttributes) (g : Geometry)
    (p : PointerReply) : Server :=
  {| sv_tree := fun _ => Ok [5; 6]; sv_attrs := attrs;
     sv_geometry := fun _ => Ok g; sv_pointer := fun _ => Ok p; sv_flush_ok := true |}.

Definition demo_attrs (w : Z) : result WindowAttributes :=
  if Z.eqb w 5 then Ok {| map_state := Viewable; override_redirect := true |}
  else Ok {| map_state := Viewable; override_redirect := false |}.

Definition demo_move : DragState := {| button := Left; window := 7; off_x := 10; off_y := 10 |}.
Definition demo_resize : DragState := {| button := Right; window := 7; off_x := 10; off_y := 10 |}.

Definition demo_geometry : Geometry :=
  {| geo_x := 0; geo_y := 0; geo_width := 640; geo_height := 480 |}.
Definition demo_pointer : PointerReply := {| root_x := 1900; root_y := 50 |}.

(** The requests [attach_child] issues for one child. *)
Definition child_requests (sv : Server) (c : Z) : list Request :=
  GetWindowAttributes c ::
  (if ManagerRs.attach_do_map (sv_attrs sv c) then
     [ConfigureWindow c [CfgX 0; CfgY 0; CfgWidth 640; CfgHeight 480; CfgBorderWidth BORDER_WIDTH];
      ChangeWindowAttributes c [CwEventMask [EM_ENTER_WINDOW; EM_FOCUS_CHANGE]];
      MapWindow c]
   else []).

Definition acts_only (P : Act -> Prop) {A} (c : M A) : Prop :=
  forall sv m, exists l, trace (conn (fst (c sv m))) = trace (conn m) ++ l /\ Forall P l.

Definition no_wait_event (a : Act) : Prop := forall b, a <> AWaitEvent b.
Definition no_ungrab (a : Act) : Prop := forall ck s, a <> ASend ck s UngrabPointer.

(** The shape shared by [ManagerRs.run] and [MainRs.run]. *)
Fixpoint run_loop (handle : Event -> M unit) (es : list Event) : M unit :=
  match es with
  | [] => ret tt
  | e :: es' => let* _ := wait_for_event in let* _ := handle e in run_loop handle es'
  end.

(** [c] leaves the part [f] of the manager as it was, whatever the server
    replies and whether or not [c] fails. *)
Definition keeps {X} (f : Manager -> X) {A} (c : M A) : Prop :=
  forall sv m, f (fst (c sv m)) = f m.


(** A drag session never targets [XCB_NONE]. *)
Definition session_ok (d : option DragState) : Prop :=
  forall ds, d = Some ds -> window ds <> NONE.

(** The grab requests a computation issues all carry the [Mod4] modifier. *)
Definition grabs_mod4 (a : Act) : Prop :=
  forall ck s gw em ct b md, a = ASend ck s (GrabButton gw em ct b md) -> md = MOD_MASK_N4.

(** ** Proof support *)

Lemma drop_length_app {A} (t l : list A) : drop (length t) (t ++ l) = l.
Proof. apply drop_app_length. Qed.

Ltac unfold_model :=
  unfold ManagerRs.handle_event, MainRs.handle_event, on_motion_notify, on_button_release,
    ManagerRs.map_window, ManagerRs.bring_window_to_front, ManagerRs.focus_window,
    query_pointer, get_geometry, get_window_attributes, query_tree,
    send_request, send_request_checked, send_request_gen, wait_for_reply, flush,
    bind, ret, get, modify, set_conn, set_drag_state, set_windows, log in *;
  cbn in *.

Ltac simpl_trace :=
  unfold sent_requests, new_trace; cbn;
  repeat rewrite <- app_assoc; cbn;
  rewrite ?drop_length_app, ?drop_all; cbn.

(** ** Claims *)

(** C5: a button release, in either loop, whatever the button, window or
    drag session, issues exactly one request, the pointer ungrab, and
    clears the drag session; nothing else of the state changes.  Only when
    the flush fails (a fatal connection error that ends [run]) is the
    session left as it was. *)
Theorem button_release_ungrabs_and_clears (sv : Server) (m : Manager) (c : Z) :
  (let '(m', r) := ManagerRs.handle_event (ButtonRelease c) sv m in
   sent_requests m m' = [UngrabPointer] /\
   drag_state m' = (if sv_flush_ok sv then None else drag_state m) /\
   r = (if sv_flush_ok sv then Ok tt else Err ConnectionError) /\
   windows m' = windows m /\ screen m' = screen m) /\
  (let '(m', r) := MainRs.handle_event (ButtonRelease c) sv m in
   sent_requests m m' = [UngrabPointer] /\
   drag_state m' = (if sv_flush_ok sv then None else drag_state m) /\
   r = (if sv_flush_ok sv then Ok tt else Err ConnectionError) /\
   windows m' = windows m /\ screen m' = screen m).
Proof.
  unfold_model.
  destruct (sv_flush_ok sv); cbn; split; repeat split; simpl_trace; reflexivity.
Qed.

(** C6: a destruction notice removes the window from the registry and
    touches nothing else, neither the connection nor the drag session
    (also when the destroyed window is the drag target); a second notice
    for the same window changes nothing. *)
Theorem destroy_notify_removes_only_registry_entry (sv : Server) (m : Manager) (w : Z) :
  let '(m1, r1) := ManagerRs.handle_event (DestroyNotify w) sv m in
  let '(m2, r2) := ManagerRs.handle_event (DestroyNotify w) sv m1 in
  r1 = Ok tt /\ windows m1 = delete w (windows m) /\
  drag_state m1 = drag_state m /\ conn m1 = conn m /\ screen m1 = screen m /\
  r2 = Ok tt /\ m2 = m1.
Proof.
  unfold_model. repeat split.
  destruct m as [c s ws d]; cbn. rewrite delete_delete_eq. reflexivity.
Qed.

(** ** The motion handler, case by case *)

Section Motion.
Variables (sv : Server) (m : Manager) (ds : DragState).
Hypothesis Hd : drag_state m = Some ds.

Lemma motion_pointer_err e :
  sv_pointer sv (root (screen m)) = Err e ->
  sent_requests m (fst (on_motion_notify sv m)) = [QueryPointer (root (screen m))] /\
  drag_state (fst (on_motion_notify sv m)) = drag_state m.
Proof.
  intros Hp. unfold_model. rewrite Hd. cbn. rewrite Hp. cbn.
  split; [simpl_trace; reflexivity | exact Hd].
Qed.

Lemma motion_geometry_err p e :
  sv_pointer sv (root (screen m)) = Ok p ->
  sv_geometry sv (window ds) = Err e ->
  sent_requests m (fst (on_motion_notify sv m)) =
    [QueryPointer (root (screen m)); GetGeometry (window ds)] /\
  drag_state (fst (on_motion_notify sv m)) = drag_state m.
Proof.
  intros Hp Hg. unfold_model. rewrite Hd. cbn. rewrite Hp, Hg. cbn.
  split; [simpl_trace; reflexivity | exact Hd].
Qed.

Lemma motion_move p g :
  button ds = Left ->
  sv_pointer sv (root (screen m)) = Ok p ->
  sv_geometry sv (window ds) = Ok g ->
  let '(x, y) := move_target (screen m) ds p g in
  sent_requests m (fst (on_motion_notify sv m)) =
    [QueryPointer (root (screen m)); GetGeometry (window ds);
     ConfigureWindow (window ds) [CfgX x; CfgY y]] /\
  drag_state (fst (on_motion_notify sv m)) = drag_state m /\
  screen (fst (on_motion_notify sv m)) = screen m.
Proof.
  intros Hb Hp Hg. unfold_model. rewrite Hd. cbn. rewrite Hp, Hg, Hb. cbn.
  destruct (move_target (screen m) ds p g) as [x y].
  destruct (sv_flush_ok sv); cbn; repeat split; try exact Hd; simpl_trace; reflexivity.
Qed.

Lemma motion_resize p g :
  button ds = Right ->
  sv_pointer sv (root (screen m)) = Ok p ->
  sv_geometry sv (window ds) = Ok g ->
  let '(w, h) := resize_target p g in
  sent_requests m (fst (on_motion_notify sv m)) =
    [QueryPointer (root (screen m)); GetGeometry (window ds)] ++
    (if (32 <=? w) && (32 <=? h) then [ConfigureWindow (window ds) [CfgWidth w; CfgHeight h]]
     else []) /\
  drag_state (fst (on_motion_notify sv m)) = drag_state m.
Proof.
  intros Hb Hp Hg. unfold_model. rewrite Hd. cbn. rewrite Hp, Hg, Hb. cbn.
  unfold resize_target. cbn.
  destruct ((32 <=? root_x p - geo_x g + 1 - BORDER_WIDTH * 2) &&
            (32 <=? root_y p - geo_y g + 1 - BORDER_WIDTH * 2));
    [destruct (sv_flush_ok sv)|]; cbn;
    split; try exact Hd; simpl_trace; reflexivity.
Qed.

End Motion.

Lemma motion_no_session (sv : Server) (m : Manager) :
  drag_state m = None -> on_motion_notify sv m = (m, Ok tt).
Proof. intros Hd. unfold_model. rewrite Hd. reflexivity. Qed.

Lemma move_axis_cases (c d s : Z) :
  let v := if c <=? 0 then 0 else if c + d >? s then s - d else c in
  (c <= 0 -> v = 0) /\ (0 < c -> s < c + d -> v = s - d) /\ (0 < c -> c + d <= s -> v = c).
Proof.
  cbn. destruct (Z.leb_spec c 0); [split; [reflexivity | split; intros; lia]|].
  destruct (Z.gtb_spec (c + d) s); repeat split; intros; lia.
Qed.

(** Each axis of [move_target] keeps the bordered window on screen when
    it fits. *)
Lemma move_axis_bounds (cand dim scr : Z) :
  dim <= scr ->
  let v := if cand <=? 0 then 0 else if cand + dim >? scr then scr - dim else cand in
  0 <= v <= scr - dim.
Proof.
  intros H; cbn.
  destruct (Z.leb_spec cand 0); [lia|].
  destruct (Z.gtb_spec (cand + dim) scr); lia.
Qed.

Lemma motion_arm_shared :
  ManagerRs.handle_event MotionNotify = on_motion_notify /\
  MainRs.handle_event MotionNotify = on_motion_notify.
Proof. split; reflexivity. Qed.

(** Any resize command the motion handler issues has both sizes >= 32. *)
Lemma motion_resize_commands_at_least_32 (sv : Server) (m : Manager) (w a b : Z) :
  In (ConfigureWindow w [CfgWidth a; CfgHeight b]) (sent_requests m (fst (on_motion_notify sv m))) ->
  32 <= a /\ 32 <= b.
Proof.
  destruct (drag_state m) as [ds|] eqn:Hd.
  2:{ rewrite motion_no_session by exact Hd. unfold sent_requests, new_trace.
      cbn. rewrite drop_all. intros []. }
  destruct (sv_pointer sv (root (screen m))) as [p|e] eqn:Hp.
  2:{ destruct (motion_pointer_err sv m ds Hd e Hp) as [-> _].
      intros [H|[]]; discriminate. }
  destruct (sv_geometry sv (window ds)) as [g|e] eqn:Hg.
  2:{ destruct (motion_geometry_err sv m ds Hd p e Hp Hg) as [-> _].
      intros [H|[H|[]]]; discriminate. }
  destruct (button ds) eqn:Hb.
  - pose proof (motion_move sv m ds Hd p g Hb Hp Hg) as Hm.
    destruct (move_target (screen m) ds p g) as [x y].
    destruct Hm as [-> _]. intros [H|[H|[H|[]]]]; discriminate.
  - pose proof (motion_resize sv m ds Hd p g Hb Hp Hg) as Hm.
    destruct (resize_target p g) as [nw nh] eqn:Hr.
    destruct Hm as [-> _].
    destruct (Z.leb_spec 32 nw) as [Hw|Hw], (Z.leb_spec 32 nh) as [Hh|Hh]; cbn;
      intros Hin; cbn in Hin;
      repeat match type of Hin with _ \/ _ => destruct Hin as [Hin|Hin] end;
      try discriminate; try contradiction; injection Hin as <- <- <-; lia.
Qed.

(** C1: in Move mode the position sent with the configure command is,
    per axis, the candidate [pointer - offset] clamped to 0 when <= 0, to
    [screen - (size + 2B)] when the bordered window would stick out, and
    unchanged otherwise; so whenever the bordered window fits on the
    screen, the position keeps it entirely on screen.  Both loops share
    this motion arm. *)
Theorem move_position_within_screen (sv : Server) (m : Manager) (ds : DragState)
    (p : PointerReply) (g : Geometry) :
  drag_state m = Some ds -> button ds = Left ->
  sv_pointer sv (root (screen m)) = Ok p ->
  sv_geometry sv (window ds) = Ok g ->
  geo_width g + 2 * BORDER_WIDTH <= width_in_pixels (screen m) ->
  geo_height g + 2 * BORDER_WIDTH <= height_in_pixels (screen m) ->
  ManagerRs.handle_event MotionNotify = on_motion_notify /\
  MainRs.handle_event MotionNotify = on_motion_notify /\
  exists x y,
    sent_requests m (fst (on_motion_notify sv m)) =
      [QueryPointer (root (screen m)); GetGeometry (window ds);
       ConfigureWindow (window ds) [CfgX x; CfgY y]] /\
    0 <= x <= width_in_pixels (screen m) - (geo_width g + 2 * BORDER_WIDTH) /\
    0 <= y <= height_in_pixels (screen m) - (geo_height g + 2 * BORDER_WIDTH) /\
    (let c := root_x p - off_x ds in
     let d := geo_width g + 2 * BORDER_WIDTH in
     let s := width_in_pixels (screen m) in
     (c <= 0 -> x = 0) /\ (0 < c -> s < c + d -> x = s - d) /\
     (0 < c -> c + d <= s -> x = c)) /\
    (let c := root_y p - off_y ds in
     let d := geo_height g + 2 * BORDER_WIDTH in
     let s := height_in_pixels (screen m) in
     (c <= 0 -> y = 0) /\ (0 < c -> s < c + d -> y = s - d) /\
     (0 < c -> c + d <= s -> y = c)).
Proof.
  intros Hd Hb Hp Hg Hw Hh.
  split; [reflexivity|]. split; [reflexivity|].
  pose proof (motion_move sv m ds Hd p g Hb Hp Hg) as H.
  destruct (move_target (screen m) ds p g) as [x y] eqn:Ht.
  destruct H as [Hs _]. exists x, y. split; [exact Hs|].
  unfold move_target in Ht. cbv zeta in Ht. injection Ht as Hx Hy.
  split; [rewrite <- Hx; apply move_axis_bounds; exact Hw|].
  split; [rewrite <- Hy; apply move_axis_bounds; exact Hh|].
  rewrite <- Hx, <- Hy. split; apply move_axis_cases.
Qed.

Lemma move_position_within_screen_witness :
  exists x y,
    sent_requests (demo_manager (Some demo_move))
      (fst (on_motion_notify
              (demo_server demo_attrs {| geo_x := 0; geo_y := 0; geo_width := 640; geo_height := 480 |}
                 {| root_x := 1900; root_y := 50 |})
              (demo_manager (Some demo_move)))) =
      [QueryPointer 1; GetGeometry 7; ConfigureWindow 7 [CfgX x; CfgY y]] /\
    0 <= x <= 1920 - 644 /\ 0 <= y <= 1080 - 484.
Proof.
  destruct (move_position_within_screen
              (demo_server demo_attrs {| geo_x := 0; geo_y := 0; geo_width := 640; geo_height := 480 |}
                 {| root_x := 1900; root_y := 50 |})
              (demo_manager (Some demo_move)) demo_move
              {| root_x := 1900; root_y := 50 |}
              {| geo_x := 0; geo_y := 0; geo_width := 640; geo_height := 480 |}
              eq_refl eq_refl eq_refl eq_refl ltac:(unfold BORDER_WIDTH; cbn; lia) ltac:(unfold BORDER_WIDTH; cbn; lia))
    as (_ & _ & x & y & Hs & Hx & Hy & _).
  exists x, y. split; [exact Hs | split; [exact Hx | exact Hy]].
Defined.

(** C2: in Resize mode the candidate size is [(ptr_x - win_x + 1 - 2B,
    ptr_y - win_y + 1 - 2B)] from the live pointer and window origin; the
    resize command is issued exactly when both are >= 32, otherwise only
    the two queries are sent and the window is not touched; and no resize
    command the motion arm issues asks for a size below 32. *)
Theorem resize_issued_iff_both_at_least_32 (sv : Server) (m : Manager) (ds : DragState)
    (p : PointerReply) (g : Geometry) :
  drag_state m = Some ds -> button ds = Right ->
  sv_pointer sv (root (screen m)) = Ok p ->
  sv_geometry sv (window ds) = Ok g ->
  let new_width := root_x p - geo_x g + 1 - BORDER_WIDTH * 2 in
  let new_height := root_y p - geo_y g + 1 - BORDER_WIDTH * 2 in
  let sent := sent_requests m (fst (on_motion_notify sv m)) in
  ManagerRs.handle_event MotionNotify = on_motion_notify /\
  MainRs.handle_event MotionNotify = on_motion_notify /\
  sent = [QueryPointer (root (screen m)); GetGeometry (window ds)] ++
         (if (32 <=? new_width) && (32 <=? new_height)
          then [ConfigureWindow (window ds) [CfgWidth new_width; CfgHeight new_height]]
          else []) /\
  (In (ConfigureWindow (window ds) [CfgWidth new_width; CfgHeight new_height]) sent <->
   32 <= new_width /\ 32 <= new_height) /\
  (forall w a b, In (ConfigureWindow w [CfgWidth a; CfgHeight b]) sent -> 32 <= a /\ 32 <= b).
Proof.
  intros Hd Hb Hp Hg nw nh sent.
  pose proof (motion_resize sv m ds Hd p g Hb Hp Hg) as Hm.
  unfold resize_target in Hm. cbv zeta in Hm. destruct Hm as [Hs _].
  assert (Hsent : sent = [QueryPointer (root (screen m)); GetGeometry (window ds)] ++
         (if (32 <=? nw) && (32 <=? nh)
          then [ConfigureWindow (window ds) [CfgWidth nw; CfgHeight nh]] else []))
    by exact Hs.
  split; [reflexivity|]. split; [reflexivity|]. split; [exact Hsent|]. split.
  - rewrite Hsent.
    destruct (Z.leb_spec 32 nw) as [Hw|Hw], (Z.leb_spec 32 nh) as [Hh|Hh]; cbn;
      split; intros H'; try lia; try (right; right; left; reflexivity);
      repeat match type of H' with _ \/ _ => destruct H' as [H'|H'] end;
      try discriminate; try contradiction.
  - intros w a b. apply motion_resize_commands_at_least_32.
Qed.

Lemma resize_issued_iff_both_at_least_32_witness :
  sent_requests (demo_manager (Some demo_resize))
    (fst (on_motion_notify
            (demo_server demo_attrs {| geo_x := 100; geo_y := 100; geo_width := 640; geo_height := 480 |}
               {| root_x := 105; root_y := 105 |})
            (demo_manager (Some demo_resize)))) =
  [QueryPointer 1; GetGeometry 7].
Proof.
  destruct (resize_issued_iff_both_at_least_32
              (demo_server demo_attrs {| geo_x := 100; geo_y := 100; geo_width := 640; geo_height := 480 |}
                 {| root_x := 105; root_y := 105 |})
              (demo_manager (Some demo_resize)) demo_resize
              {| root_x := 105; root_y := 105 |}
              {| geo_x := 100; geo_y := 100; geo_width := 640; geo_height := 480 |}
              eq_refl eq_refl eq_refl eq_refl)
    as (_ & _ & Hs & _).
  rewrite Hs. reflexivity.
Defined.

Lemma move_target_size_only (s : Screen) (ds : DragState) (p : PointerReply) (g1 g2 : Geometry) :
  geo_width g2 = geo_width g1 -> geo_height g2 = geo_height g1 ->
  move_target s ds p g2 = move_target s ds p g1.
Proof. intros Hw Hh. unfold move_target. rewrite Hw, Hh. reflexivity. Qed.

(** C8: Move is idempotent under a stationary pointer: after one motion
    notification in Move mode the drag session is unchanged, and a second
    notification that sees the same pointer position and the same window
    size computes the same target, issues the same requests, and leaves
    the window with the same geometry as the first. *)
Theorem move_idempotent_stationary_pointer (sv1 sv2 : Server) (m : Manager) (ds : DragState)
    (p : PointerReply) (g1 g2 : Geometry) :
  drag_state m = Some ds -> button ds = Left ->
  sv_pointer sv1 (root (screen m)) = Ok p -> sv_pointer sv2 (root (screen m)) = Ok p ->
  sv_geometry sv1 (window ds) = Ok g1 -> sv_geometry sv2 (window ds) = Ok g2 ->
  geo_width g2 = geo_width g1 -> geo_height g2 = geo_height g1 ->
  let m1 := fst (ManagerRs.handle_event MotionNotify sv1 m) in
  let m2 := fst (ManagerRs.handle_event MotionNotify sv2 m1) in
  drag_state m1 = drag_state m /\
  move_target (screen m1) ds p g2 = move_target (screen m) ds p g1 /\
  sent_requests m1 m2 = sent_requests m m1 /\
  (forall vl, In (ConfigureWindow (window ds) vl) (sent_requests m m1) ->
     apply_configure g2 vl = apply_configure g1 vl).
Proof.
  intros Hd Hb Hp1 Hp2 Hg1 Hg2 Hw Hh.
  change (ManagerRs.handle_event MotionNotify) with on_motion_notify. cbv zeta.
  pose proof (motion_move sv1 m ds Hd p g1 Hb Hp1 Hg1) as H1.
  destruct (move_target (screen m) ds p g1) as [x y] eqn:Ht1.
  set (m1 := fst (on_motion_notify sv1 m)) in *.
  destruct H1 as (Hs1 & Hd1 & Hsc1).
  assert (Hd1' : drag_state m1 = Some ds) by (rewrite Hd1; exact Hd).
  pose proof (motion_move sv2 m1 ds Hd1' p g2 Hb) as H2.
  rewrite Hsc1 in H2. specialize (H2 Hp2 Hg2).
  rewrite (move_target_size_only (screen m) ds p g1 g2 Hw Hh), Ht1 in H2.
  destruct H2 as (Hs2 & _ & _).
  split; [exact Hd1|]. split.
  { rewrite Hsc1. rewrite (move_target_size_only (screen m) ds p g1 g2 Hw Hh). exact Ht1. }
  split; [rewrite Hs1, Hs2; reflexivity|].
  intros vl Hin. rewrite Hs1 in Hin. cbn in Hin.
  repeat match type of Hin with _ \/ _ => destruct Hin as [Hin|Hin] end;
    try discriminate; try contradiction.
  injection Hin as <-. cbn. rewrite Hw, Hh. reflexivity.
Qed.

Lemma move_idempotent_stationary_pointer_witness :
  let g := {| geo_x := 0; geo_y := 0; geo_width := 640; geo_height := 480 |} in
  let p := {| root_x := 300; root_y := 200 |} in
  let m := demo_manager (Some demo_move) in
  let m1 := fst (ManagerRs.handle_event MotionNotify (demo_server demo_attrs g p) m) in
  sent_requests m1 (fst (ManagerRs.handle_event MotionNotify
                            (demo_server demo_attrs (apply_configure g [CfgX 290; CfgY 190]) p) m1)) =
  sent_requests m m1.
Proof.
  cbv zeta.
  destruct (move_idempotent_stationary_pointer
              (demo_server demo_attrs {| geo_x := 0; geo_y := 0; geo_width := 640; geo_height := 480 |}
                 {| root_x := 300; root_y := 200 |})
              (demo_server demo_attrs
                 (apply_configure {| geo_x := 0; geo_y := 0; geo_width := 640; geo_height := 480 |}
                    [CfgX 290; CfgY 190]) {| root_x := 300; root_y := 200 |})
              (demo_manager (Some demo_move)) demo_move {| root_x := 300; root_y := 200 |}
              {| geo_x := 0; geo_y := 0; geo_width := 640; geo_height := 480 |}
              (apply_configure {| geo_x := 0; geo_y := 0; geo_width := 640; geo_height := 480 |}
                 [CfgX 290; CfgY 190])
              eq_refl eq_refl eq_refl eq_refl eq_refl eq_refl eq_refl eq_refl)
    as (_ & _ & Hs & _).
  exact Hs.
Defined.

(** C3, as the scenario states it: the y coordinate is not 10. *)
Lemma move_scenario_not_1276_10 :
  move_target demo_screen demo_move {| root_x := 1900; root_y := 50 |}
    {| geo_x := 0; geo_y := 0; geo_width := 640; geo_height := 480 |} <> (1276, 10).
Proof. vm_compute. discriminate. Qed.

(** C3 (amended): screen 1920x1080, border 2, a 640x480 window dragged
    with offset (10,10), pointer at (1900,50): the x candidate 1890 is
    clamped to 1920 - 644 = 1276, the y candidate 40 fits and is kept;
    the target is (1276, 40) wherever the window is and whatever its id. *)
Theorem move_scenario_target (w gx gy : Z) :
  move_target demo_screen {| button := Left; window := w; off_x := 10; off_y := 10 |}
    {| root_x := 1900; root_y := 50 |}
    {| geo_x := gx; geo_y := gy; geo_width := 640; geo_height := 480 |} = (1276, 40).
Proof. reflexivity. Qed.

(** ** Startup enumeration *)

Lemma sends_app (l1 l2 : list Act) : sends (l1 ++ l2) = sends l1 ++ sends l2.
Proof. induction l1 as [|[] l1 IH]; cbn; rewrite ?IH; reflexivity. Qed.

Lemma attach_child_step (sv : Server) (m : Manager) (c : Z) :
  let '(m', r) := ManagerRs.attach_child c sv m in
  r = Ok tt /\ screen m' = screen m /\
  (exists l, trace (conn m') = trace (conn m) ++ l /\ sends l = child_requests sv c) /\
  windows m' = (if ManagerRs.attach_do_map (sv_attrs sv c)
                then <[c := {| x_window := c |}]> (windows m) else windows m).
Proof.
  unfold ManagerRs.attach_child, child_requests.
  unfold_model.
  destruct (ManagerRs.attach_do_map (sv_attrs sv c)); cbn.
  - repeat split. eexists. split; [rewrite <- !app_assoc; reflexivity | reflexivity].
  - repeat split. eexists. split; [rewrite <- !app_assoc; reflexivity | reflexivity].
Qed.

Lemma attach_children_step (sv : Server) (ws : list Z) (m : Manager) :
  let '(m', r) := ManagerRs.attach_children ws sv m in
  r = Ok tt /\ screen m' = screen m /\
  (exists l, trace (conn m') = trace (conn m) ++ l /\ sends l = flat_map (child_requests sv) ws) /\
  (forall w, ManagerRs.attach_do_map (sv_attrs sv w) = false -> windows m' !! w = windows m !! w) /\
  (forall w, windows m' !! w <> None ->
     (In w ws /\ ManagerRs.attach_do_map (sv_attrs sv w) = true) \/ windows m !! w <> None).
Proof.
  revert m. induction ws as [|c ws IH]; intros m.
  - cbn. repeat split. exists []. rewrite app_nil_r. split; reflexivity.
    intros w H. right. exact H.
  - cbn [ManagerRs.attach_children]. unfold bind at 1.
    pose proof (attach_child_step sv m c) as Hc.
    destruct (ManagerRs.attach_child c sv m) as [m1 r1].
    destruct Hc as (-> & Hsc1 & (l1 & Ht1 & Hl1) & Hw1).
    specialize (IH m1).
    destruct (ManagerRs.attach_children ws sv m1) as [m2 r2].
    destruct IH as (-> & Hsc2 & (l2 & Ht2 & Hl2) & Hk & Hin).
    split; [reflexivity|]. split; [congruence|]. split.
    + exists (l1 ++ l2). split; [rewrite Ht2, Ht1, app_assoc; reflexivity|].
      rewrite sends_app, Hl1, Hl2. reflexivity.
    + split.
      * intros w Hw. rewrite Hk by exact Hw. rewrite Hw1.
        destruct (ManagerRs.attach_do_map (sv_attrs sv c)) eqn:Hc; [|reflexivity].
        rewrite lookup_insert_ne; [reflexivity|]. intros <-. congruence.
      * intros w Hw. destruct (Hin w Hw) as [[Hw' Hd]|Hw'].
        { left. split; [right; exact Hw' | exact Hd]. }
        rewrite Hw1 in Hw'.
        destruct (ManagerRs.attach_do_map (sv_attrs sv c)) eqn:Hc; [|right; exact Hw'].
        destruct (decide (c = w)) as [<-|Hne].
        { left. split; [left; reflexivity | exact Hc]. }
        rewrite lookup_insert_ne in Hw' by exact Hne. right. exact Hw'.
Qed.

Lemma child_requests_not_target (sv : Server) (cs : list Z) (w : Z) (r : Request) :
  ManagerRs.attach_do_map (sv_attrs sv w) = false ->
  In r (flat_map (child_requests sv) cs) ->
  r <> MapWindow w /\ forall vl, r <> ConfigureWindow w vl.
Proof.
  intros Hw Hin. apply in_flat_map in Hin as (c & _ & Hr).
  unfold child_requests in Hr.
  destruct (decide (c = w)) as [->|Hne].
  - rewrite Hw in Hr. destruct Hr as [<-|[]]. split; [discriminate | intros vl; discriminate].
  - destruct (ManagerRs.attach_do_map (sv_attrs sv c)); cbn in Hr;
      repeat match type of Hr with _ \/ _ => destruct Hr as [Hr|Hr] end;
      try contradiction; subst r;
      (split; [intros H | intros vl H]; inversion H; subst; congruence).
Qed.

(** Startup enumeration, read off: the requests it issues, and which
    windows end up in the registry. *)
Lemma attach_existing_windows_spec (sv : Server) (m : Manager) :
  let m' := fst (ManagerRs.attach_existing_windows sv m) in
  (exists rest, sent_requests m m' = QueryTree (root (screen m)) :: rest /\
     forall r, In r rest -> exists cs, sv_tree sv (root (screen m)) = Ok cs /\
                              In r (flat_map (child_requests sv) cs)) /\
  (forall w, ManagerRs.attach_do_map (sv_attrs sv w) = false -> windows m' !! w = None) /\
  (forall w, windows m' !! w <> None ->
     ManagerRs.attach_do_map (sv_attrs sv w) = true /\
     exists cs, sv_tree sv (root (screen m)) = Ok cs /\ In w cs).
Proof.
  unfold ManagerRs.attach_existing_windows. unfold_model.
  destruct (sv_tree sv (root (screen m))) as [cs|e] eqn:Ht; cbn.
  2:{ split; [exists []; split; [simpl_trace; reflexivity | intros r []]|].
      split; [intros; reflexivity|]. intros w H. exfalso. apply H. reflexivity. }
  match goal with |- context [ManagerRs.attach_children cs sv ?m1] =>
    pose proof (attach_children_step sv cs m1) as Hc;
    destruct (ManagerRs.attach_children cs sv m1) as [m2 r2] end.
  destruct Hc as (-> & _ & (l & Htr & Hl) & Hk & Hin). cbn in *.
  assert (Hsent : forall m3, trace (conn m3) = trace (conn m2) ++ [AFlush] \/ m3 = m2 ->
            sent_requests m m3 = QueryTree (root (screen m)) :: flat_map (child_requests sv) cs).
  { intros m3 Hm3. unfold sent_requests, new_trace.
    destruct Hm3 as [Hm3 | ->]; rewrite ?Hm3, Htr; rewrite <- !app_assoc, drop_length_app; cbn;
      rewrite ?sends_app, Hl; cbn; rewrite ?app_nil_r; reflexivity. }
  assert (Hrest : forall r, In r (flat_map (child_requests sv) cs) ->
            exists cs', Ok cs = Ok cs' /\ In r (flat_map (child_requests sv) cs'))
    by (intros r Hr; exists cs; split; [reflexivity | exact Hr]).
  destruct (sv_flush_ok sv); cbn.
  - split; [exists (flat_map (child_requests sv) cs); split;
            [apply Hsent; left; reflexivity | exact Hrest]|].
    split; [intros w Hw; rewrite Hk by exact Hw; reflexivity|].
    intros w Hw. destruct (Hin w Hw) as [[Hw' Hd]|Hw']; [|exfalso; apply Hw'; reflexivity].
    split; [exact Hd | exists cs; split; [reflexivity | exact Hw']].
  - split; [exists (flat_map (child_requests sv) cs); split;
            [apply Hsent; right; reflexivity | exact Hrest]|].
    split; [intros w Hw; rewrite Hk by exact Hw; reflexivity|].
    intros w Hw. destruct (Hin w Hw) as [[Hw' Hd]|Hw']; [|exfalso; apply Hw'; reflexivity].
    split; [exact Hd | exists cs; split; [reflexivity | exact Hw']].
Qed.

(** C4, as stated: at startup the root has children 5 and 6, and 5 is a
    viewable override-redirect window; after the enumeration 5 is not in
    the registry (6, an ordinary viewable window, is). *)
Lemma attach_override_redirect_not_registered :
  demo_attrs 5 = Ok {| map_state := Viewable; override_redirect := true |} /\
  windows (fst (ManagerRs.attach_existing_windows
                  (demo_server demo_attrs demo_geometry demo_pointer) (demo_manager None))) !! 5
    = None /\
  windows (fst (ManagerRs.attach_existing_windows
                  (demo_server demo_attrs demo_geometry demo_pointer) (demo_manager None))) !! 6
    = Some {| x_window := 6 |}.
Proof. split; [reflexivity | split; vm_compute; reflexivity]. Qed.

(** C4 (amended): a child whose attribute reply has the override-redirect
    flag set is neither inserted into the registry nor mapped or
    configured during startup enumeration; only children whose attribute
    query succeeded, that are not unmapped and not override-redirect end
    up in the registry. *)
Theorem attach_skips_override_redirect (sv : Server) (m : Manager) (w : Z) (a : WindowAttributes) :
  sv_attrs sv w = Ok a -> override_redirect a = true ->
  let m' := fst (ManagerRs.attach_existing_windows sv m) in
  windows m' !! w = None /\
  (forall r, In r (sent_requests m m') -> r <> MapWindow w /\ forall vl, r <> ConfigureWindow w vl) /\
  (forall v, windows m' !! v <> None ->
     ManagerRs.attach_do_map (sv_attrs sv v) = true /\
     exists cs, sv_tree sv (root (screen m)) = Ok cs /\ In v cs).
Proof.
  intros Ha Ho m'.
  assert (Hd : ManagerRs.attach_do_map (sv_attrs sv w) = false)
    by (rewrite Ha; cbn; rewrite Ho, andb_false_r; reflexivity).
  destruct (attach_existing_windows_spec sv m) as ((rest & Hs & Hrest) & Hk & Hin).
  split; [exact (Hk w Hd)|]. split; [|exact Hin].
  intros r Hr. fold m' in Hs. rewrite Hs in Hr. destruct Hr as [<-|Hr].
  - split; [discriminate | intros vl; discriminate].
  - destruct (Hrest r Hr) as (cs & _ & Hr').
    exact (child_requests_not_target sv cs w r Hd Hr').
Qed.

Lemma attach_skips_override_redirect_witness :
  windows (fst (ManagerRs.attach_existing_windows
                  (demo_server demo_attrs demo_geometry demo_pointer) (demo_manager None))) !! 5
    = None.
Proof.
  exact (proj1 (attach_skips_override_redirect
                  (demo_server demo_attrs demo_geometry demo_pointer) (demo_manager None) 5
                  {| map_state := Viewable; override_redirect := true |} eq_refl eq_refl)).
Defined.

(** ** What a computation may add to the trace *)

Section ActsOnly.
Variable P : Act -> Prop.

Lemma acts_only_ret {A} (a : A) : acts_only P (ret a).
Proof. intros sv m. exists []. split; [rewrite app_nil_r; reflexivity | constructor]. Qed.

Lemma acts_only_get : acts_only P get.
Proof. intros sv m. exists []. split; [rewrite app_nil_r; reflexivity | constructor]. Qed.

Lemma acts_only_modify (f : Manager -> Manager) :
  (forall m, conn (f m) = conn m) -> acts_only P (modify f).
Proof.
  intros Hf sv m. exists []. cbn. rewrite Hf, app_nil_r. split; [reflexivity | constructor].
Qed.

Lemma acts_only_send (ck : bool) (r : Request) :
  (forall s, P (ASend ck s r)) -> acts_only P (send_request_gen ck r).
Proof. intros HP sv m. eexists. split; [reflexivity | repeat constructor; apply HP]. Qed.

Lemma acts_only_flush : P AFlush -> acts_only P flush.
Proof.
  intros HP sv m. unfold flush. destruct (sv_flush_ok sv).
  - eexists. split; [reflexivity | repeat constructor; exact HP].
  - exists []. split; [rewrite app_nil_r; reflexivity | constructor].
Qed.

Lemma acts_only_wait {A} (ck : Cookie A) :
  (forall s, P (AWaitReply s)) -> acts_only P (wait_for_reply ck).
Proof. intros HP sv m. eexists. split; [reflexivity | repeat constructor; apply HP]. Qed.

Lemma acts_only_bind {A B} (c : M A) (k : A -> M B) :
  acts_only P c -> (forall a, acts_only P (k a)) -> acts_only P (bind c k).
Proof.
  intros Hc Hk sv m. destruct (Hc sv m) as (l1 & Ht1 & Hl1). unfold bind.
  destruct (c sv m) as [m1 [a|e]]; cbn in *.
  - destruct (Hk a sv m1) as (l2 & Ht2 & Hl2). exists (l1 ++ l2).
    split; [rewrite Ht2, Ht1, app_assoc; reflexivity | apply Forall_app; split; assumption].
  - exists l1. split; assumption.
Qed.

End ActsOnly.

Ltac acts_only_tac :=
  repeat first
    [ apply acts_only_bind; [|intro]
    | apply acts_only_ret
    | apply acts_only_get
    | apply acts_only_modify; intro; reflexivity
    | apply acts_only_send; intro
    | apply acts_only_flush
    | apply acts_only_wait; intro
    | match goal with
      | |- acts_only _ (match ?x with _ => _ end) => destruct x
      | |- acts_only _ (if ?b then _ else _) => destruct b
      end ].

Lemma manager_handle_no_wait_event (e : Event) :
  acts_only no_wait_event (ManagerRs.handle_event e).
Proof.
  destruct e; unfold ManagerRs.handle_event, on_motion_notify, on_button_release,
    ManagerRs.map_window, ManagerRs.bring_window_to_front, ManagerRs.focus_window,
    get_geometry, query_pointer, send_request, send_request_checked;
    acts_only_tac; unfold no_wait_event; intros; discriminate.
Qed.

Lemma main_handle_no_wait_event (e : Event) :
  acts_only no_wait_event (MainRs.handle_event e).
Proof.
  destruct e; unfold MainRs.handle_event, on_motion_notify, on_button_release,
    get_geometry, query_pointer, send_request, send_request_checked;
    acts_only_tac; unfold no_wait_event; intros; discriminate.
Qed.

Ltac simpl_pending :=
  cbn;
  try match goal with H : out_buf (conn _) = [] |- _ => rewrite !H end;
  rewrite ?Z.eqb_refl, ?orb_true_r; cbn.

Ltac split_branches :=
  repeat (simpl_pending;
    match goal with
    | |- context [sv_flush_ok ?sv] => destruct (sv_flush_ok sv)
    | |- context [sv_geometry ?sv ?w] => destruct (sv_geometry sv w)
    | |- context [sv_pointer ?sv ?w] => destruct (sv_pointer sv w)
    | |- context [drag_state ?m] => destruct (drag_state m)
    | |- context [button ?d] => destruct (button d)
    | |- context [Z.eqb ?a ?b] => destruct (Z.eqb a b)
    | |- context [Z.leb ?a ?b] => destruct (Z.leb a b)
    | |- context [Z.gtb ?a ?b] => destruct (Z.gtb a b)
    end);
  simpl_pending.

Lemma manager_handle_flushes (sv : Server) (m : Manager) (e : Event) :
  out_buf (conn m) = [] ->
  snd (ManagerRs.handle_event e sv m) = Ok tt ->
  out_buf (conn (fst (ManagerRs.handle_event e sv m))) = [].
Proof.
  intros Hb. destruct e; unfold_model; rewrite ?Hb; split_branches;
    solve [intros; first [reflexivity | exact Hb | discriminate]].
Qed.

Lemma main_handle_flushes (sv : Server) (m : Manager) (e : Event) :
  out_buf (conn m) = [] ->
  snd (MainRs.handle_event e sv m) = Ok tt ->
  out_buf (conn (fst (MainRs.handle_event e sv m))) = [].
Proof.
  intros Hb. destruct e; unfold_model; rewrite ?Hb; split_branches;
    solve [intros; first [reflexivity | exact Hb | discriminate]].
Qed.

(** Every arm of [Manager::run] other than the modified button press
    that issues a command ends with an explicit flush. *)
Lemma manager_handle_ends_with_flush (sv : Server) (m : Manager) (e : Event) :
  (forall d s c x y, e = ButtonPress d s c x y -> s = 0) ->
  snd (ManagerRs.handle_event e sv m) = Ok tt ->
  Exists (fun r => is_query r = false)
    (sent_requests m (fst (ManagerRs.handle_event e sv m))) ->
  last (trace (conn (fst (ManagerRs.handle_event e sv m)))) = Some AFlush.
Proof.
  intros He. destruct e; try (specialize (He _ _ _ _ _ eq_refl); subst);
    unfold_model; split_branches;
    intros Hr Hex; cbn in Hr; try discriminate;
    first [ rewrite last_snoc; reflexivity
          | exfalso; revert Hex; simpl_trace; rewrite Stdlib.Lists.List.Exists_exists;
            intros (r & Hin & Hq); cbn in Hin;
            repeat match type of Hin with _ \/ _ => destruct Hin as [Hin|Hin] end;
            try contradiction; subst r; discriminate ].
Qed.

(** ** The event loop *)

Section Loop.
Variable handle : Event -> M unit.
Hypothesis handle_acts : forall e, acts_only no_wait_event (handle e).
Hypothesis handle_flushes : forall sv m e,
  out_buf (conn m) = [] -> snd (handle e sv m) = Ok tt -> out_buf (conn (fst (handle e sv m))) = [].

Lemma run_loop_waits_flushed (sv : Server) (es : list Event) (m : Manager) :
  out_buf (conn m) = [] ->
  exists l, trace (conn (fst (run_loop handle es sv m))) = trace (conn m) ++ l /\
            Forall (fun a => a <> AWaitEvent false) l.
Proof.
  revert m. induction es as [|e es IH]; intros m Hb.
  - exists []. cbn. rewrite app_nil_r. split; [reflexivity | constructor].
  - cbn [run_loop]. unfold bind at 1, wait_for_event. cbn.
    set (m1 := set_conn m _).
    assert (Hb1 : out_buf (conn m1) = []) by exact Hb.
    assert (Ht1 : trace (conn m1) = trace (conn m) ++ [AWaitEvent true])
      by (cbn; rewrite Hb; reflexivity).
    unfold bind.
    destruct (handle_acts e sv m1) as (l2 & Ht2 & Hl2).
    pose proof (handle_flushes sv m1 e Hb1) as Hf.
    destruct (handle e sv m1) as [m2 [[]|err]]; cbn in *.
    + destruct (IH m2 (Hf eq_refl)) as (l3 & Ht3 & Hl3).
      exists ([AWaitEvent true] ++ l2 ++ l3). split.
      * rewrite Ht3, Ht2, Ht1, !app_assoc. reflexivity.
      * apply Forall_app. split; [repeat constructor; discriminate|].
        apply Forall_app. split; [|exact Hl3].
        eapply Forall_impl; [exact Hl2|]. intros a Ha. apply Ha.
    + exists ([AWaitEvent true] ++ l2). split.
      * rewrite Ht2, Ht1, app_assoc. reflexivity.
      * apply Forall_app. split; [repeat constructor; discriminate|].
        eapply Forall_impl; [exact Hl2|]. intros a Ha. apply Ha.
Qed.

End Loop.

Lemma manager_run_is_loop (es : list Event) :
  ManagerRs.run es = run_loop ManagerRs.handle_event es.
Proof. induction es as [|e es IH]; cbn; rewrite ?IH; reflexivity. Qed.

Lemma main_run_is_loop (es : list Event) :
  MainRs.run es = run_loop MainRs.handle_event es.
Proof. induction es as [|e es IH]; cbn; rewrite ?IH; reflexivity. Qed.

Lemma waits_in_new_trace (m m' : Manager) (l : list Act) (b : bool) :
  trace (conn m') = trace (conn m) ++ l ->
  Forall (fun a => a <> AWaitEvent false) l ->
  In (AWaitEvent b) (new_trace m m') -> b = true.
Proof.
  intros Ht Hl Hin. unfold new_trace in Hin. rewrite Ht, drop_length_app in Hin.
  rewrite Stdlib.Lists.List.Forall_forall in Hl. destruct b; [reflexivity|].
  exfalso. exact (Hl _ Hin eq_refl).
Qed.

(** C7, as stated: a modified button press over a window issues commands
    (raise and pointer grab), yet the last interaction of that arm is
    waiting for the geometry reply, not a flush; in both loops. *)
Lemma modified_press_last_is_reply_wait :
  let m := demo_manager None in
  let sv := demo_server demo_attrs demo_geometry demo_pointer in
  let e := ButtonPress 1 64 5 100 100 in
  In (ConfigureWindow 5 [CfgStackMode Above]) (sent_requests m (fst (ManagerRs.handle_event e sv m))) /\
  last (trace (conn (fst (ManagerRs.handle_event e sv m)))) = Some (AWaitReply 3) /\
  In (ConfigureWindow 5 [CfgStackMode Above]) (sent_requests m (fst (MainRs.handle_event e sv m))) /\
  last (trace (conn (fst (MainRs.handle_event e sv m)))) = Some (AWaitReply 3).
Proof. vm_compute. repeat split; auto. Qed.

(** C7 (amended): the loops never block for the next event with requests
    still buffered.  Every arm of [Manager::run] that issues a command
    ends with an explicit flush, except the modified button press, which
    ends by waiting for the geometry reply: that wait writes out every
    request issued before it (main.rs also flushes just before it), so
    after every arm that returns normally the output buffer is empty. *)
Theorem loops_never_wait_with_buffered_requests (sv : Server) (m : Manager) (es : list Event) :
  out_buf (conn m) = [] ->
  (forall b, In (AWaitEvent b) (new_trace m (fst (ManagerRs.run es sv m))) -> b = true) /\
  (forall b, In (AWaitEvent b) (new_trace m (fst (MainRs.run es sv m))) -> b = true) /\
  (forall e m0, out_buf (conn m0) = [] -> snd (ManagerRs.handle_event e sv m0) = Ok tt ->
     out_buf (conn (fst (ManagerRs.handle_event e sv m0))) = []) /\
  (forall e m0, out_buf (conn m0) = [] -> snd (MainRs.handle_event e sv m0) = Ok tt ->
     out_buf (conn (fst (MainRs.handle_event e sv m0))) = []) /\
  (forall e m0, (forall d s c x y, e = ButtonPress d s c x y -> s = 0) ->
     snd (ManagerRs.handle_event e sv m0) = Ok tt ->
     Exists (fun r => is_query r = false) (sent_requests m0 (fst (ManagerRs.handle_event e sv m0))) ->
     last (trace (conn (fst (ManagerRs.handle_event e sv m0)))) = Some AFlush).
Proof.
  intros Hb. split; [|split; [|split; [|split]]].
  - intros b. rewrite manager_run_is_loop.
    destruct (run_loop_waits_flushed ManagerRs.handle_event manager_handle_no_wait_event
                manager_handle_flushes sv es m Hb) as (l & Ht & Hl).
    exact (waits_in_new_trace _ _ l b Ht Hl).
  - intros b. rewrite main_run_is_loop.
    destruct (run_loop_waits_flushed MainRs.handle_event main_handle_no_wait_event
                main_handle_flushes sv es m Hb) as (l & Ht & Hl).
    exact (waits_in_new_trace _ _ l b Ht Hl).
  - intros e m0. apply manager_handle_flushes.
  - intros e m0. apply main_handle_flushes.
  - intros e m0. apply manager_handle_ends_with_flush.
Qed.

Lemma loops_never_wait_with_buffered_requests_witness :
  Forall (fun a => a <> AWaitEvent false)
    (new_trace (demo_manager None)
       (fst (ManagerRs.run [MapRequest 5; ButtonPress 1 64 5 100 100; MotionNotify; ButtonRelease 5]
               (demo_server demo_attrs demo_geometry demo_pointer) (demo_manager None)))).
Proof.
  pose proof (proj1 (loops_never_wait_with_buffered_requests
                       (demo_server demo_attrs demo_geometry demo_pointer) (demo_manager None)
                       [MapRequest 5; ButtonPress 1 64 5 100 100; MotionNotify; ButtonRelease 5]
                       eq_refl)) as H.
  apply Stdlib.Lists.List.Forall_forall. intros a Hin Ha. subst a.
  discriminate (H false Hin).
Defined.

(** ** Map requests *)

(** C9, as stated, fails for [Manager::run]: its [map_window] sends the
    map command last, after the configure and attribute commands. *)
Lemma manager_map_request_not_map_first :
  sent_requests (demo_manager None)
    (fst (ManagerRs.handle_event (MapRequest 5)
            (demo_server demo_attrs demo_geometry demo_pointer) (demo_manager None))) <>
  [MapWindow 5;
   ConfigureWindow 5 [CfgX 0; CfgY 0; CfgWidth 640; CfgHeight 480; CfgBorderWidth BORDER_WIDTH];
   ChangeWindowAttributes 5 [CwEventMask [EM_ENTER_WINDOW; EM_FOCUS_CHANGE]]].
Proof. vm_compute. discriminate. Qed.

(** C9 (amended): a map request applies the constant placement (origin
    (0,0), 640x480, border 2) and issues exactly three commands for the
    window, a map command, a configure command with that placement and an
    attribute change enabling enter and focus-change events, followed by
    a flush; main.rs issues them in the order map, configure, attributes,
    [Manager::run] (through [map_window]) in the order configure,
    attributes, map.  Registry and drag session are untouched. *)
Theorem map_request_placement_and_commands (sv : Server) (m : Manager) (w : Z) :
  let placement := ConfigureWindow w [CfgX 0; CfgY 0; CfgWidth 640; CfgHeight 480;
                                      CfgBorderWidth BORDER_WIDTH] in
  let events := ChangeWindowAttributes w [CwEventMask [EM_ENTER_WINDOW; EM_FOCUS_CHANGE]] in
  let fl := if sv_flush_ok sv then [AFlush] else [] in
  let s := next_seq (conn m) in
  (let m' := fst (MainRs.handle_event (MapRequest w) sv m) in
   new_trace m m' =
     [ASend true s (MapWindow w); ASend true (s + 1) placement; ASend true (s + 1 + 1) events] ++ fl /\
   windows m' = windows m /\ drag_state m' = drag_state m) /\
  (let m' := fst (ManagerRs.handle_event (MapRequest w) sv m) in
   new_trace m m' =
     [ASend true s placement; ASend true (s + 1) events; ASend true (s + 1 + 1) (MapWindow w)] ++ fl /\
   windows m' = windows m /\ drag_state m' = drag_state m).
Proof.
  unfold_model. destruct (sv_flush_ok sv); cbn; repeat split; simpl_trace; reflexivity.
Qed.

(** ** Button presses *)

Lemma sends_no_ungrab (l : list Act) :
  Forall no_ungrab l -> ~ In UngrabPointer (sends l).
Proof.
  induction l as [|a l IH]; intros Hl; [intros []|].
  inversion Hl as [|? ? Ha Hl']; subst.
  destruct a as [ck s r| | |]; cbn; try exact (IH Hl').
  intros [->|Hin]; [exact (Ha ck s eq_refl) | exact (IH Hl' Hin)].
Qed.

Lemma manager_handle_no_ungrab (e : Event) :
  (forall c, e <> ButtonRelease c) -> acts_only no_ungrab (ManagerRs.handle_event e).
Proof.
  intros He. destruct e;
    try (exfalso; eapply He; reflexivity);
    unfold ManagerRs.handle_event, on_motion_notify,
      ManagerRs.map_window, ManagerRs.bring_window_to_front, ManagerRs.focus_window,
      get_geometry, query_pointer, send_request, send_request_checked;
    acts_only_tac; unfold no_ungrab; intros; discriminate.
Qed.

Lemma main_handle_no_ungrab (e : Event) :
  (forall c, e <> ButtonRelease c) -> acts_only no_ungrab (MainRs.handle_event e).
Proof.
  intros He. destruct e;
    try (exfalso; eapply He; reflexivity);
    unfold MainRs.handle_event, on_motion_notify,
      get_geometry, query_pointer, send_request, send_request_checked;
    acts_only_tac; unfold no_ungrab; intros; discriminate.
Qed.

Lemma acts_only_no_ungrab_sent {A} (c : M A) (sv : Server) (m : Manager) :
  acts_only no_ungrab c -> ~ In UngrabPointer (sent_requests m (fst (c sv m))).
Proof.
  intros Hc. destruct (Hc sv m) as (l & Ht & Hl).
  unfold sent_requests, new_trace. rewrite Ht, drop_length_app.
  exact (sends_no_ungrab l Hl).
Qed.

(** C10: a button press with a modifier (a non-empty state mask) over a
    window, with a button other than 1 or 3, still raises the window,
    grabs the pointer and queries the geometry, and then sets the drag
    session to None, discarding any live session; the same in main.rs,
    which takes this arm for every press over a window.  The grab is not
    released there: no arm but the button release issues an ungrab. *)
Theorem modified_press_other_button_clears_session (sv : Server) (m : Manager)
    (detail state child rx ry : Z) (g : Geometry) :
  detail <> 1 -> detail <> 3 -> state <> 0 -> child <> NONE ->
  sv_geometry sv child = Ok g -> sv_flush_ok sv = true ->
  let grab := GrabPointer (root (screen m))
                [EM_BUTTON_RELEASE; EM_BUTTON_MOTION; EM_POINTER_MOTION_HINT] (root (screen m)) in
  (let '(m', r) := ManagerRs.handle_event (ButtonPress detail state child rx ry) sv m in
   sent_requests m m' = [ConfigureWindow child [CfgStackMode Above]; grab; GetGeometry child] /\
   r = Ok tt /\ drag_state m' = None /\ windows m' = windows m) /\
  (let '(m', r) := MainRs.handle_event (ButtonPress detail state child rx ry) sv m in
   sent_requests m m' = [ConfigureWindow child [CfgStackMode Above]; grab; GetGeometry child] /\
   r = Ok tt /\ drag_state m' = None /\ windows m' = windows m) /\
  (forall e sv' m0, (forall c, e <> ButtonRelease c) ->
     ~ In UngrabPointer (sent_requests m0 (fst (ManagerRs.handle_event e sv' m0)))) /\
  (forall e sv' m0, (forall c, e <> ButtonRelease c) ->
     ~ In UngrabPointer (sent_requests m0 (fst (MainRs.handle_event e sv' m0)))).
Proof.
  intros H1 H3 Hs Hc Hg Hf grab.
  assert (Hd : drag_for_button detail child (wrap_i16 (rx - geo_x g)) (wrap_i16 (ry - geo_y g)) = None).
  { unfold drag_for_button.
    destruct (Z.eqb_spec detail 1); [contradiction|].
    destruct (Z.eqb_spec detail 3); [contradiction|]. reflexivity. }
  apply Z.eqb_neq in Hs. apply Z.eqb_neq in Hc. unfold NONE in Hc.
  split; [|split; [|split]].
  - unfold_model. unfold NONE. rewrite Hs, Hc, Hg. cbn. rewrite Hd.
    repeat split; simpl_trace; reflexivity.
  - unfold_model. unfold NONE. rewrite Hc, Hf, Hg. cbn. rewrite Hd.
    repeat split; simpl_trace; reflexivity.
  - intros e sv' m0 He. apply acts_only_no_ungrab_sent, manager_handle_no_ungrab, He.
  - intros e sv' m0 He. apply acts_only_no_ungrab_sent, main_handle_no_ungrab, He.
Qed.

Lemma modified_press_other_button_clears_session_witness :
  drag_state (fst (ManagerRs.handle_event (ButtonPress 2 64 5 100 100)
                     (demo_server demo_attrs demo_geometry demo_pointer)
                     (demo_manager (Some demo_move)))) = None.
Proof.
  destruct (modified_press_other_button_clears_session
              (demo_server demo_attrs demo_geometry demo_pointer) (demo_manager (Some demo_move))
              2 64 5 100 100 demo_geometry
              ltac:(discriminate) ltac:(discriminate) ltac:(discriminate) ltac:(discriminate)
              eq_refl eq_refl) as (H & _).
  cbv zeta in H.
  destruct (ManagerRs.handle_event (ButtonPress 2 64 5 100 100)
              (demo_server demo_attrs demo_geometry demo_pointer)
              (demo_manager (Some demo_move))) as [m' r].
  destruct H as (_ & _ & Hd & _). exact Hd.
Defined.

(** ** Further properties of the code *)

Section Keeps.
Context {X : Type} (f : Manager -> X).
Hypothesis f_conn : forall m c, f (set_conn m c) = f m.

Lemma keeps_ret {A} (a : A) : keeps f (ret a).
Proof. intros sv m. reflexivity. Qed.

Lemma keeps_get : keeps f get.
Proof. intros sv m. reflexivity. Qed.

Lemma keeps_modify (g : Manager -> Manager) :
  (forall m, f (g m) = f m) -> keeps f (modify g).
Proof. intros Hg sv m. apply Hg. Qed.

Lemma keeps_send (ck : bool) (r : Request) : keeps f (send_request_gen ck r).
Proof. intros sv m. apply f_conn. Qed.

Lemma keeps_flush : keeps f flush.
Proof. intros sv m. unfold flush. destruct (sv_flush_ok sv); [apply f_conn | reflexivity]. Qed.

Lemma keeps_wait {A} (ck : Cookie A) : keeps f (wait_for_reply ck).
Proof. intros sv m. apply f_conn. Qed.

Lemma keeps_wait_event : keeps f wait_for_event.
Proof. intros sv m. apply f_conn. Qed.

Lemma keeps_attempt {A} (c : M A) : keeps f c -> keeps f (attempt c).
Proof. intros Hc sv m. unfold attempt. specialize (Hc sv m). destruct (c sv m). exact Hc. Qed.

Lemma keeps_bind {A B} (c : M A) (k : A -> M B) :
  keeps f c -> (forall a, keeps f (k a)) -> keeps f (bind c k).
Proof.
  intros Hc Hk sv m. specialize (Hc sv m). unfold bind.
  destruct (c sv m) as [m1 [a|e]]; cbn in *; [rewrite Hk|]; exact Hc.
Qed.

End Keeps.

Ltac keeps_tac :=
  repeat first
    [ apply keeps_bind; [|intro]
    | apply keeps_ret
    | apply keeps_get
    | apply keeps_modify; intro; reflexivity
    | apply keeps_send; intros; reflexivity
    | apply keeps_flush; intros; reflexivity
    | apply keeps_wait; intros; reflexivity
    | apply keeps_wait_event; intros; reflexivity
    | apply keeps_attempt
    | match goal with
      | |- keeps _ (match ?x with _ => _ end) => destruct x
      | |- keeps _ (if ?b then _ else _) => destruct b
      end ].

Ltac unfold_handlers :=
  unfold ManagerRs.handle_event, MainRs.handle_event, on_motion_notify, on_button_release,
    ManagerRs.map_window, ManagerRs.bring_window_to_front, ManagerRs.focus_window,
    get_geometry, query_pointer, send_request, send_request_checked.

Lemma manager_handle_keeps_windows (e : Event) :
  (forall w, e <> CreateNotify w) -> (forall w, e <> DestroyNotify w) ->
  keeps windows (ManagerRs.handle_event e).
Proof.
  intros Hc Hd. destruct e; try (exfalso; eapply Hc; reflexivity);
    try (exfalso; eapply Hd; reflexivity); unfold_handlers; keeps_tac.
Qed.

Lemma manager_handle_keeps_screen (e : Event) : keeps screen (ManagerRs.handle_event e).
Proof. destruct e; unfold_handlers; keeps_tac. Qed.

Lemma main_handle_keeps_screen (e : Event) : keeps screen (MainRs.handle_event e).
Proof. destruct e; unfold_handlers; keeps_tac. Qed.

Lemma manager_handle_keeps_drag (e : Event) :
  (forall d s c x y, e <> ButtonPress d s c x y) -> (forall c, e <> ButtonRelease c) ->
  keeps drag_state (ManagerRs.handle_event e).
Proof.
  intros Hp Hr. destruct e; try (exfalso; eapply Hp; reflexivity);
    try (exfalso; eapply Hr; reflexivity); unfold_handlers; keeps_tac.
Qed.

Lemma main_handle_keeps_drag (e : Event) :
  (forall d s c x y, e <> ButtonPress d s c x y) -> (forall c, e <> ButtonRelease c) ->
  keeps drag_state (MainRs.handle_event e).
Proof.
  intros Hp Hr. destruct e; try (exfalso; eapply Hp; reflexivity);
    try (exfalso; eapply Hr; reflexivity); unfold_handlers; keeps_tac.
Qed.

Lemma acts_only_run_loop (P : Act -> Prop) (handle : Event -> M unit) (es : list Event) :
  (forall b, P (AWaitEvent b)) -> (forall e, acts_only P (handle e)) ->
  acts_only P (run_loop handle es).
Proof.
  intros Hw Hh. induction es as [|e es IH]; cbn [run_loop].
  - apply acts_only_ret.
  - apply acts_only_bind; [|intros _; apply acts_only_bind; [apply Hh | intros _; exact IH]].
    intros sv m. eexists. split; [reflexivity | repeat constructor; apply Hw].
Qed.


(** X1: [Manager::connect], when the preferred screen exists and the
    flush succeeds, returns a manager on that screen with an empty
    registry, no drag session and nothing buffered; on the connection it
    has sent, checked and in this order, the substructure redirect on the
    root, the release of all key grabs, the grab of the plain left button
    and the grabs of Mod4+left and Mod4+right, then flushed. *)
Theorem connect_success (sv : Server) (roots : list Screen) (n : nat) (scr : Screen) :
  nth_error roots n = Some scr -> sv_flush_ok sv = true ->
  exists m, ManagerRs.connect sv (Ok (roots, n)) = Some (Ok m) /\
    screen m = scr /\ windows m = empty /\ drag_state m = None /\ out_buf (conn m) = [] /\
    trace (conn m) =
      [ASend true 1 (ChangeWindowAttributes (root scr)
                       [CwEventMask [EM_SUBSTRUCTURE_REDIRECT; EM_STRUCTURE_NOTIFY;
                                     EM_SUBSTRUCTURE_NOTIFY; EM_PROPERTY_CHANGE]]);
       ASend true 2 (UngrabKey GRAB_ANY (root scr) MOD_MASK_ANY);
       ASend true 3 (GrabButton (root scr) [EM_BUTTON_PRESS] (root scr)
                       BUTTON_INDEX_N1 MOD_MASK_EMPTY);
       ASend true 4 (GrabButton (root scr) [EM_BUTTON_PRESS; EM_BUTTON_RELEASE] (root scr)
                       BUTTON_INDEX_N1 MOD_MASK_N4);
       ASend true 5 (GrabButton (root scr) [EM_BUTTON_PRESS; EM_BUTTON_RELEASE] (root scr)
                       BUTTON_INDEX_N3 MOD_MASK_N4);
       AFlush].
Proof.
  intros Hn Hf. unfold ManagerRs.connect, ManagerRs.connect_setup. rewrite Hn.
  unfold_model. rewrite Hf. eexists. repeat split.
Qed.

Lemma connect_success_witness :
  exists m, ManagerRs.connect (demo_server demo_attrs demo_geometry demo_pointer)
              (Ok ([demo_screen], 0%nat)) = Some (Ok m) /\ windows m = empty.
Proof.
  destruct (connect_success (demo_server demo_attrs demo_geometry demo_pointer)
              [demo_screen] 0 demo_screen eq_refl eq_refl) as (m & H1 & _ & H2 & _).
  exists m. split; [exact H1 | exact H2].
Defined.

(** X2: [Manager::connect] fails in three ways: a connection error is
    returned as is; a preferred screen number beyond the setup's roots
    panics ([unwrap]); a failing flush of the setup requests returns the
    connection error and no manager. *)
Theorem connect_failures (sv : Server) :
  (forall e, ManagerRs.connect sv (Err e) = Some (Err e)) /\
  (forall roots n, (length roots <= n)%nat -> ManagerRs.connect sv (Ok (roots, n)) = None) /\
  (forall roots n scr, nth_error roots n = Some scr -> sv_flush_ok sv = false ->
     ManagerRs.connect sv (Ok (roots, n)) = Some (Err ConnectionError)).
Proof.
  split; [|split].
  - intros e. reflexivity.
  - intros roots n Hn. unfold ManagerRs.connect.
    apply nth_error_None in Hn. rewrite Hn. reflexivity.
  - intros roots n scr Hn Hf. unfold ManagerRs.connect, ManagerRs.connect_setup. rewrite Hn.
    unfold_model. rewrite Hf. reflexivity.
Qed.

(** X3: main.rs, once connected to an existing screen, sends the
    substructure redirect, the release of all key grabs and the grabs of
    Mod4+left and Mod4+right (checked, sequence numbers 1 to 4) before
    anything else, and flushes them before waiting for the first event;
    if that flush fails, [main] returns the error without waiting for any
    event. *)
Theorem main_startup (sv : Server) (roots : list Screen) (n : nat) (scr : Screen)
    (es : list Event) :
  nth_error roots n = Some scr ->
  exists tr r, MainRs.main sv (Ok (roots, n)) es = Some (tr, r) /\
    exists rest, tr =
      [ASend true 1 (ChangeWindowAttributes (root scr)
                       [CwEventMask [EM_SUBSTRUCTURE_REDIRECT; EM_STRUCTURE_NOTIFY;
                                     EM_SUBSTRUCTURE_NOTIFY; EM_PROPERTY_CHANGE]]);
       ASend true 2 (UngrabKey GRAB_ANY (root scr) MOD_MASK_ANY);
       ASend true 3 (GrabButton (root scr) [EM_BUTTON_PRESS; EM_BUTTON_RELEASE] (root scr)
                       BUTTON_INDEX_N1 MOD_MASK_N4);
       ASend true 4 (GrabButton (root scr) [EM_BUTTON_PRESS; EM_BUTTON_RELEASE] (root scr)
                       BUTTON_INDEX_N3 MOD_MASK_N4)] ++ rest /\
    (if sv_flush_ok sv then head rest = Some AFlush /\
       (es <> [] -> nth_error rest 1 = Some (AWaitEvent true))
     else rest = [] /\ r = Err ConnectionError).
Proof.
  intros Hn. unfold MainRs.main. rewrite Hn. unfold MainRs.setup. unfold_model.
  destruct (sv_flush_ok sv) eqn:Hf; cbn.
  - destruct es as [|e es]; cbn.
    + do 2 eexists. split; [reflexivity|]. eexists. split; [reflexivity|].
      split; [reflexivity | intros H; contradiction].
    + unfold bind at 1, wait_for_event. cbn.
      pose proof (acts_only_run_loop (fun _ => True) MainRs.handle_event es
                    (fun _ => I) (fun e => ltac:(destruct e; unfold_handlers; acts_only_tac; exact I)))
        as Hr.
      rewrite <- main_run_is_loop in Hr.
      match goal with |- context [MainRs.handle_event e sv ?m1] =>
        pose proof (main_handle_no_wait_event e sv m1) as (l1 & Ht1 & _);
        destruct (MainRs.handle_event e sv m1) as [m2 [[]|err]] end; cbn in *.
      * destruct (Hr sv m2) as (l2 & Ht2 & _).
        destruct (MainRs.run es sv m2) as [m3 r3]. cbn in *.
        do 2 eexists. split; [reflexivity|]. rewrite Ht2, Ht1. eexists.
        split; [cbn [app]; reflexivity|].
        split; [reflexivity | intros _; reflexivity].
      * do 2 eexists. split; [reflexivity|]. rewrite Ht1. eexists.
        split; [reflexivity|]. split; [reflexivity | intros _; reflexivity].
  - do 2 eexists. split; [reflexivity|]. eexists.
    split; [reflexivity|]. split; reflexivity.
Qed.

Lemma main_startup_witness :
  exists tr r, MainRs.main (demo_server demo_attrs demo_geometry demo_pointer)
                 (Ok ([demo_screen], 0%nat)) [MapRequest 5] = Some (tr, r).
Proof.
  destruct (main_startup (demo_server demo_attrs demo_geometry demo_pointer)
              [demo_screen] 0 demo_screen [MapRequest 5] eq_refl) as (tr & r & H & _).
  exists tr, r. exact H.
Defined.

Lemma main_handle_grabs_mod4 (e : Event) : acts_only grabs_mod4 (MainRs.handle_event e).
Proof.
  destruct e; unfold_handlers; acts_only_tac; unfold grabs_mod4; intros; discriminate.
Qed.

(** X4: main.rs only ever grabs buttons held together with Mod4: in
    everything [main] sends, from its setup through any number of events,
    every button grab carries the Mod4 modifier (unlike Manager::connect,
    it has no grab of the plain left button). *)
Theorem main_grabs_only_mod4 (sv : Server) (roots : list Screen) (n : nat) (es : list Event)
    (tr : list Act) (r : result unit) :
  MainRs.main sv (Ok (roots, n)) es = Some (tr, r) -> Forall grabs_mod4 tr.
Proof.
  unfold MainRs.main. destruct (nth_error roots n) as [scr|]; [|discriminate].
  unfold MainRs.setup. unfold_model.
  destruct (sv_flush_ok sv); cbn.
  - pose proof (acts_only_run_loop grabs_mod4 MainRs.handle_event es
                  ltac:(unfold grabs_mod4; intros; discriminate) main_handle_grabs_mod4) as Hr.
    rewrite <- main_run_is_loop in Hr.
    match goal with |- context [MainRs.run es sv ?m1] =>
      destruct (Hr sv m1) as (l & Ht & Hl); destruct (MainRs.run es sv m1) as [m2 r2] end.
    intros H. injection H as <- _. cbn in Ht. rewrite Ht.
    repeat constructor; try exact Hl; unfold grabs_mod4; intros * Ha;
      inversion Ha; reflexivity.
  - intros H. injection H as <- _.
    repeat constructor; unfold grabs_mod4; intros * Ha;
      inversion Ha; reflexivity.
Qed.

Lemma main_grabs_only_mod4_witness :
  match MainRs.main (demo_server demo_attrs demo_geometry demo_pointer)
          (Ok ([demo_screen], 0%nat)) [MapRequest 5; ButtonPress 1 64 5 100 100] with
  | Some (tr, _) => Forall grabs_mod4 tr
  | None => False
  end.
Proof.
  destruct (MainRs.main (demo_server demo_attrs demo_geometry demo_pointer)
              (Ok ([demo_screen], 0%nat)) [MapRequest 5; ButtonPress 1 64 5 100 100])
    as [[tr r]|] eqn:H.
  - exact (main_grabs_only_mod4 _ _ _ _ tr r H).
  - vm_compute in H. discriminate.
Defined.

(** X5: a creation notice registers the window under its own id and
    changes nothing else: no request, the other registry entries, the
    connection and the drag session stay as they were. *)
Theorem create_notify_registers (sv : Server) (m : Manager) (w : Z) :
  let '(m', r) := ManagerRs.handle_event (CreateNotify w) sv m in
  r = Ok tt /\ windows m' !! w = Some {| x_window := w |} /\
  (forall v, v <> w -> windows m' !! v = windows m !! v) /\
  conn m' = conn m /\ drag_state m' = drag_state m.
Proof.
  unfold_model. split; [reflexivity|]. split; [apply lookup_insert_eq|].
  split; [intros v Hv; apply lookup_insert_ne; congruence | split; reflexivity].
Qed.

(** X6: creation and destruction notices for one window compose as
    insert and delete: create then destroy leaves the registry without
    the window, which is the registry from before when the window was not
    registered; destroy then create leaves it registered under its id. *)
Theorem create_destroy_round_trip (sv : Server) (m : Manager) (w : Z) :
  let step e m0 := fst (ManagerRs.handle_event e sv m0) in
  windows (step (DestroyNotify w) (step (CreateNotify w) m)) = delete w (windows m) /\
  (windows m !! w = None ->
   windows (step (DestroyNotify w) (step (CreateNotify w) m)) = windows m) /\
  windows (step (CreateNotify w) (step (DestroyNotify w) m)) =
    <[w := {| x_window := w |}]> (windows m).
Proof.
  cbn. split; [|split].
  - apply delete_insert_eq.
  - intros Hn. rewrite delete_insert_eq. apply delete_id. exact Hn.
  - apply insert_delete_eq.
Qed.

(** X7: only creation and destruction notices change the registry of
    [Manager::run]: every other event leaves it as it was, whatever the
    server replies and also when the handler fails. *)
Theorem registry_changes_only_on_create_destroy (sv : Server) (m : Manager) (e : Event) :
  (forall w, e <> CreateNotify w) -> (forall w, e <> DestroyNotify w) ->
  windows (fst (ManagerRs.handle_event e sv m)) = windows m.
Proof. intros Hc Hd. exact (manager_handle_keeps_windows e Hc Hd sv m). Qed.

Lemma registry_changes_only_on_create_destroy_witness :
  windows (fst (ManagerRs.handle_event (MapRequest 5)
                  (demo_server demo_attrs demo_geometry demo_pointer) (demo_manager None)))
  = windows (demo_manager None).
Proof.
  exact (registry_changes_only_on_create_destroy
           (demo_server demo_attrs demo_geometry demo_pointer) (demo_manager None) (MapRequest 5)
           ltac:(discriminate) ltac:(discriminate)).
Defined.

Lemma attach_children_windows (sv : Server) (ws : list Z) (m : Manager) (w : Z) :
  windows (fst (ManagerRs.attach_children ws sv m)) !! w =
    if bool_decide (w ∈ ws) && ManagerRs.attach_do_map (sv_attrs sv w)
    then Some {| x_window := w |} else windows m !! w.
Proof.
  revert m. induction ws as [|c ws IH]; intros m; [reflexivity|].
  cbn [ManagerRs.attach_children]. unfold bind at 1.
  pose proof (attach_child_step sv m c) as Hc.
  destruct (ManagerRs.attach_child c sv m) as [m1 r1].
  destruct Hc as (-> & _ & _ & Hw1). rewrite IH, Hw1.
  destruct (decide (c = w)) as [<-|Hne].
  - rewrite (bool_decide_true (c ∈ c :: ws)) by (left; reflexivity).
    destruct (bool_decide (c ∈ ws)), (ManagerRs.attach_do_map (sv_attrs sv c)); cbn;
      rewrite ?lookup_insert_eq; reflexivity.
  - assert (Hin : bool_decide (w ∈ c :: ws) = bool_decide (w ∈ ws)).
    { apply bool_decide_ext. rewrite elem_of_cons. split; [intros [->|H]; [contradiction | exact H] | auto]. }
    rewrite Hin.
    destruct (bool_decide (w ∈ ws) && ManagerRs.attach_do_map (sv_attrs sv w)); [reflexivity|].
    destruct (ManagerRs.attach_do_map (sv_attrs sv c)); [|reflexivity].
    apply lookup_insert_ne. exact Hne.
Qed.

Lemma attach_existing_windows_outcome (sv : Server) (m : Manager) :
  let '(m', r) := ManagerRs.attach_existing_windows sv m in
  match sv_tree sv (root (screen m)) with
  | Ok cs =>
      (forall w, windows m' !! w =
         if bool_decide (w ∈ cs) && ManagerRs.attach_do_map (sv_attrs sv w)
         then Some {| x_window := w |} else None) /\
      sent_requests m m' = QueryTree (root (screen m)) :: flat_map (child_requests sv) cs /\
      r = (if sv_flush_ok sv then Ok tt else Err ConnectionError)
  | Err e =>
      windows m' = empty /\ sent_requests m m' = [QueryTree (root (screen m))] /\ r = Err e
  end.
Proof.
  unfold ManagerRs.attach_existing_windows. unfold_model.
  destruct (sv_tree sv (root (screen m))) as [cs|e] eqn:Ht; cbn.
  2:{ split; [reflexivity|]. split; [simpl_trace; reflexivity | reflexivity]. }
  match goal with |- context [ManagerRs.attach_children cs sv ?m1] =>
    pose proof (attach_children_windows sv cs m1) as Hw;
    pose proof (attach_children_step sv cs m1) as Hc;
    destruct (ManagerRs.attach_children cs sv m1) as [m2 r2] end.
  destruct Hc as (-> & _ & (l & Htr & Hl) & _). cbn in *.
  assert (Hsent : forall m3, trace (conn m3) = trace (conn m2) ++ [AFlush] \/ m3 = m2 ->
            sent_requests m m3 = QueryTree (root (screen m)) :: flat_map (child_requests sv) cs).
  { intros m3 Hm3. unfold sent_requests, new_trace.
    destruct Hm3 as [Hm3 | ->]; rewrite ?Hm3, Htr; rewrite <- !app_assoc, drop_length_app; cbn;
      rewrite ?sends_app, Hl; cbn; rewrite ?app_nil_r; reflexivity. }
  destruct (sv_flush_ok sv); cbn.
  - split; [intros w; rewrite Hw; destruct (_ && _); reflexivity|].
    split; [apply Hsent; left; reflexivity | reflexivity].
  - split; [intros w; rewrite Hw; destruct (_ && _); reflexivity|].
    split; [apply Hsent; right; reflexivity | reflexivity].
Qed.

(** X8: startup enumeration forgets whatever the registry held before.
    When the root's children [cs] are known, the registry afterwards holds
    exactly the children whose attributes could be read and that are
    neither unmapped nor override-redirect, each under its own id; the
    requests are the tree query, then for each child in order its
    attribute query and, if it is kept, the three requests of
    [map_window]; a failing attribute query does not stop the
    enumeration.  When the tree query fails, the registry is left empty,
    nothing but the tree query is sent and the error is returned. *)
Theorem attach_registry_exact (sv : Server) (m : Manager) :
  let '(m', r) := ManagerRs.attach_existing_windows sv m in
  match sv_tree sv (root (screen m)) with
  | Ok cs =>
      (forall w, windows m' !! w =
         if bool_decide (w ∈ cs) && ManagerRs.attach_do_map (sv_attrs sv w)
         then Some {| x_window := w |} else None) /\
      sent_requests m m' = QueryTree (root (screen m)) :: flat_map (child_requests sv) cs /\
      r = (if sv_flush_ok sv then Ok tt else Err ConnectionError)
  | Err e =>
      windows m' = empty /\ sent_requests m m' = [QueryTree (root (screen m))] /\ r = Err e
  end.
Proof. exact (attach_existing_windows_outcome sv m). Qed.




(** X10: in [Manager::run] a focus-in paints the window's border blue
    ([0x0055ff]) and a focus-out paints it black, each with exactly one
    attribute change on the event window followed by a flush, leaving the
    registry and the drag session as they were; main.rs ignores both
    events. *)
Theorem focus_events_recolour_border (sv : Server) (m : Manager) (w : Z) :
  (let '(m', r) := ManagerRs.handle_event (FocusIn w) sv m in
   sent_requests m m' = [ChangeWindowAttributes w [CwBorderPixel 0x0055ff]] /\
   r = (if sv_flush_ok sv then Ok tt else Err ConnectionError) /\
   windows m' = windows m /\ drag_state m' = drag_state m) /\
  (let '(m', r) := ManagerRs.handle_event (FocusOut w) sv m in
   sent_requests m m' = [ChangeWindowAttributes w [CwBorderPixel 0]] /\
   r = (if sv_flush_ok sv then Ok tt else Err ConnectionError) /\
   windows m' = windows m /\ drag_state m' = drag_state m) /\
  MainRs.handle_event (FocusIn w) sv m = (m, Ok tt) /\
  MainRs.handle_event (FocusOut w) sv m = (m, Ok tt).
Proof.
  unfold_model. destruct (sv_flush_ok sv); cbn; repeat split; simpl_trace; reflexivity.
Qed.

(** X11: configure requests from clients, configure, map, unmap and
    mapping notices, client messages and unhandled events are ignored by
    both loops: nothing is sent and the state is unchanged; in particular
    a client's configure request is never carried out.  main.rs also ignores creation,
    destruction and focus events. *)
Theorem ignored_events (sv : Server) (m : Manager) (e : Event) :
  In e [ConfigureRequest; ConfigureNotify; MapNotify; UnmapNotify; MappingNotify;
        ClientMessage; OtherEvent] ->
  ManagerRs.handle_event e sv m = (m, Ok tt) /\ MainRs.handle_event e sv m = (m, Ok tt) /\
  forall w, MainRs.handle_event (CreateNotify w) sv m = (m, Ok tt) /\
            MainRs.handle_event (DestroyNotify w) sv m = (m, Ok tt).
Proof.
  intros He. cbn in He.
  repeat match type of He with _ \/ _ => destruct He as [<-|He] end; try contradiction;
    repeat split.
Qed.

Lemma ignored_events_witness :
  ManagerRs.handle_event ConfigureRequest (demo_server demo_attrs demo_geometry demo_pointer)
    (demo_manager (Some demo_move)) = (demo_manager (Some demo_move), Ok tt).
Proof.
  exact (proj1 (ignored_events (demo_server demo_attrs demo_geometry demo_pointer)
                  (demo_manager (Some demo_move)) ConfigureRequest ltac:(left; reflexivity))).
Defined.

(** X12: both loops handle the pointer entering a window the same way
    (focus follows the mouse): exactly one [SetInputFocus] to that window
    with revert-to [PointerRoot], then a flush; the registry and the drag
    session are unchanged. *)
Theorem enter_notify_focuses_window (sv : Server) (m : Manager) (w : Z) :
  ManagerRs.handle_event (EnterNotify w) sv m = MainRs.handle_event (EnterNotify w) sv m /\
  let '(m', r) := ManagerRs.handle_event (EnterNotify w) sv m in
  sent_requests m m' = [SetInputFocus PointerRoot w] /\
  r = (if sv_flush_ok sv then Ok tt else Err ConnectionError) /\
  windows m' = windows m /\ drag_state m' = drag_state m.
Proof.
  unfold_model. destruct (sv_flush_ok sv); cbn; repeat split; simpl_trace; reflexivity.
Qed.

(** X13: a button press that is not over a window ([child] is NONE) is
    ignored by both loops, whatever the button and modifiers: nothing is
    sent and the state, including a live drag session, is unchanged. *)
Theorem press_outside_windows_ignored (sv : Server) (m : Manager) (detail state rx ry : Z) :
  ManagerRs.handle_event (ButtonPress detail state NONE rx ry) sv m = (m, Ok tt) /\
  MainRs.handle_event (ButtonPress detail state NONE rx ry) sv m = (m, Ok tt).
Proof. cbn. destruct (Z.eqb state 0); split; reflexivity. Qed.

(** X14: in [Manager::run] a press with no modifier over a window only
    raises it: one stacking change to [Above] for that window and a flush;
    no pointer grab, no geometry query, and the drag session and the
    registry stay as they were. *)
Theorem plain_press_only_raises (sv : Server) (m : Manager) (detail child rx ry : Z) :
  child <> NONE ->
  let '(m', r) := ManagerRs.handle_event (ButtonPress detail 0 child rx ry) sv m in
  sent_requests m m' = [ConfigureWindow child [CfgStackMode Above]] /\
  r = (if sv_flush_ok sv then Ok tt else Err ConnectionError) /\
  drag_state m' = drag_state m /\ windows m' = windows m.
Proof.
  intros Hc. apply Z.eqb_neq in Hc. unfold_model. unfold NONE in *. rewrite Hc.
  destruct (sv_flush_ok sv); cbn; repeat split; simpl_trace; reflexivity.
Qed.

Lemma plain_press_only_raises_witness :
  drag_state (fst (ManagerRs.handle_event (ButtonPress 1 0 5 100 100)
                     (demo_server demo_attrs demo_geometry demo_pointer)
                     (demo_manager (Some demo_move)))) = Some demo_move.
Proof.
  pose proof (plain_press_only_raises (demo_server demo_attrs demo_geometry demo_pointer)
                (demo_manager (Some demo_move)) 1 5 100 100 ltac:(unfold NONE; lia)) as H.
  destruct (ManagerRs.handle_event (ButtonPress 1 0 5 100 100)
              (demo_server demo_attrs demo_geometry demo_pointer)
              (demo_manager (Some demo_move))) as [m' r].
  destruct H as (_ & _ & Hd & _). exact Hd.
Defined.

Lemma wrap_i16_small (z : Z) : -32768 <= z <= 32767 -> wrap_i16 z = z.
Proof. intros H. unfold wrap_i16. rewrite Z.mod_small by lia. lia. Qed.

Lemma manager_modified_press (sv : Server) (m : Manager) (detail state child rx ry : Z)
    (g : Geometry) :
  state <> 0 -> child <> NONE -> sv_geometry sv child = Ok g ->
  let '(m', r) := ManagerRs.handle_event (ButtonPress detail state child rx ry) sv m in
  sent_requests m m' =
    [ConfigureWindow child [CfgStackMode Above];
     GrabPointer (root (screen m)) [EM_BUTTON_RELEASE; EM_BUTTON_MOTION; EM_POINTER_MOTION_HINT]
       (root (screen m));
     GetGeometry child] /\
  r = Ok tt /\
  drag_state m' = drag_for_button detail child (wrap_i16 (rx - geo_x g)) (wrap_i16 (ry - geo_y g)) /\
  windows m' = windows m /\ screen m' = screen m.
Proof.
  intros Hs Hc Hg. apply Z.eqb_neq in Hs, Hc. unfold_model. unfold NONE in *.
  rewrite Hs, Hc, Hg. cbn. repeat split; simpl_trace; reflexivity.
Qed.

Lemma main_modified_press (sv : Server) (m : Manager) (detail state child rx ry : Z)
    (g : Geometry) :
  child <> NONE -> sv_geometry sv child = Ok g -> sv_flush_ok sv = true ->
  let '(m', r) := MainRs.handle_event (ButtonPress detail state child rx ry) sv m in
  sent_requests m m' =
    [ConfigureWindow child [CfgStackMode Above];
     GrabPointer (root (screen m)) [EM_BUTTON_RELEASE; EM_BUTTON_MOTION; EM_POINTER_MOTION_HINT]
       (root (screen m));
     GetGeometry child] /\
  r = Ok tt /\
  drag_state m' = drag_for_button detail child (wrap_i16 (rx - geo_x g)) (wrap_i16 (ry - geo_y g)) /\
  windows m' = windows m /\ screen m' = screen m.
Proof.
  intros Hc Hg Hf. apply Z.eqb_neq in Hc. unfold_model. unfold NONE in *.
  rewrite Hc, Hf, Hg. cbn. repeat split; simpl_trace; reflexivity.
Qed.



Lemma still_pointer_move_target (s : Screen) (child rx ry : Z) (g : Geometry) :
  -32768 <= rx - geo_x g <= 32767 -> -32768 <= ry - geo_y g <= 32767 ->
  0 <= geo_x g -> geo_x g + geo_width g + 2 * BORDER_WIDTH <= width_in_pixels s ->
  0 <= geo_y g -> geo_y g + geo_height g + 2 * BORDER_WIDTH <= height_in_pixels s ->
  move_target s {| button := Left; window := child; off_x := wrap_i16 (rx - geo_x g);
                   off_y := wrap_i16 (ry - geo_y g) |}
    {| root_x := rx; root_y := ry |} g = (geo_x g, geo_y g).
Proof.
  intros Hx Hy Hx0 Hw Hy0 Hh. unfold move_target. cbn.
  rewrite !wrap_i16_small by assumption.
  replace (rx - (rx - geo_x g)) with (geo_x g) by lia.
  replace (ry - (ry - geo_y g)) with (geo_y g) by lia.
  destruct (move_axis_cases (geo_x g) (geo_width g + 2 * BORDER_WIDTH) (width_in_pixels s))
    as (Hx1 & _ & Hx3).
  destruct (move_axis_cases (geo_y g) (geo_height g + 2 * BORDER_WIDTH) (height_in_pixels s))
    as (Hy1 & _ & Hy3).
  cbn in Hx1, Hx3, Hy1, Hy3. f_equal.
  - destruct (Z.eq_dec (geo_x g) 0) as [He|Hne].
    + rewrite Hx1 by lia. lia.
    + apply Hx3; lia.
  - destruct (Z.eq_dec (geo_y g) 0) as [He|Hne].
    + rewrite Hy1 by lia. lia.
    + apply Hy3; lia.
Qed.

(** X16: a left press with a modifier over a window that lies entirely on the
    screen and then moving while the pointer reads the same position as
    at the press does not move the window: the motion sends the window's
    own origin (when the pointer's offset from that origin fits in an
    [i16]).  Holds for both loops (main.rs when its flush succeeds). *)
Theorem press_then_still_motion_keeps_position (sv : Server) (m : Manager)
    (state child rx ry : Z) (g : Geometry) :
  state <> 0 -> child <> NONE -> sv_geometry sv child = Ok g ->
  sv_pointer sv (root (screen m)) = Ok {| root_x := rx; root_y := ry |} ->
  -32768 <= rx - geo_x g <= 32767 -> -32768 <= ry - geo_y g <= 32767 ->
  0 <= geo_x g -> geo_x g + geo_width g + 2 * BORDER_WIDTH <= width_in_pixels (screen m) ->
  0 <= geo_y g -> geo_y g + geo_height g + 2 * BORDER_WIDTH <= height_in_pixels (screen m) ->
  let expected := [QueryPointer (root (screen m)); GetGeometry child;
                   ConfigureWindow child [CfgX (geo_x g); CfgY (geo_y g)]] in
  (let m1 := fst (ManagerRs.handle_event (ButtonPress 1 state child rx ry) sv m) in
   sent_requests m1 (fst (ManagerRs.handle_event MotionNotify sv m1)) = expected) /\
  (sv_flush_ok sv = true ->
   let m1 := fst (MainRs.handle_event (ButtonPress 1 state child rx ry) sv m) in
   sent_requests m1 (fst (MainRs.handle_event MotionNotify sv m1)) = expected).
Proof.
  intros Hs Hc Hg Hp Hx Hy Hx0 Hw Hy0 Hh expected.
  assert (Hmove : forall m1,
    drag_state m1 = drag_for_button 1 child (wrap_i16 (rx - geo_x g)) (wrap_i16 (ry - geo_y g)) ->
    screen m1 = screen m ->
    sent_requests m1 (fst (on_motion_notify sv m1)) = expected).
  { intros m1 Hd1 Hsc. cbn in Hd1.
    pose proof (motion_move sv m1 _ Hd1 {| root_x := rx; root_y := ry |} g eq_refl
                  ltac:(rewrite Hsc; exact Hp) Hg) as Hm.
    rewrite Hsc, still_pointer_move_target in Hm by assumption.
    destruct Hm as (Hm & _). rewrite Hm. reflexivity. }
  split.
  - pose proof (manager_modified_press sv m 1 state child rx ry g Hs Hc Hg) as H1. cbn zeta.
    destruct (ManagerRs.handle_event (ButtonPress 1 state child rx ry) sv m) as [m1 r1].
    destruct H1 as (_ & _ & Hd1 & _ & Hsc). exact (Hmove m1 Hd1 Hsc).
  - intros Hf. pose proof (main_modified_press sv m 1 state child rx ry g Hc Hg Hf) as H1. cbn zeta.
    destruct (MainRs.handle_event (ButtonPress 1 state child rx ry) sv m) as [m1 r1].
    destruct H1 as (_ & _ & Hd1 & _ & Hsc). exact (Hmove m1 Hd1 Hsc).
Qed.

Lemma press_then_still_motion_keeps_position_witness :
  let sv := demo_server demo_attrs {| geo_x := 100; geo_y := 200; geo_width := 640;
                                      geo_height := 480 |}
              {| root_x := 150; root_y := 260 |} in
  let m1 := fst (ManagerRs.handle_event (ButtonPress 1 64 5 150 260) sv (demo_manager None)) in
  sent_requests m1 (fst (ManagerRs.handle_event MotionNotify sv m1)) =
    [QueryPointer 1; GetGeometry 5; ConfigureWindow 5 [CfgX 100; CfgY 200]].
Proof.
  exact (proj1 (press_then_still_motion_keeps_position
                  (demo_server demo_attrs {| geo_x := 100; geo_y := 200; geo_width := 640;
                                             geo_height := 480 |}
                     {| root_x := 150; root_y := 260 |})
                  (demo_manager None) 64 5 150 260
                  {| geo_x := 100; geo_y := 200; geo_width := 640; geo_height := 480 |}
                  ltac:(discriminate) ltac:(unfold NONE; discriminate) eq_refl eq_refl
                  ltac:(cbn; lia) ltac:(cbn; lia) ltac:(cbn; lia)
                  ltac:(unfold BORDER_WIDTH; cbn; lia) ltac:(cbn; lia)
                  ltac:(unfold BORDER_WIDTH; cbn; lia))).
Defined.

(** X17: in a resize session, when the new size is at least 32x32 the
    command sent keeps the window's origin and makes the pointer sit on
    the last column and row of the window including its border: the
    bottom-right corner of the bordered window follows the pointer. *)
Theorem resize_corner_at_pointer (sv : Server) (m : Manager) (ds : DragState)
    (p : PointerReply) (g : Geometry) :
  drag_state m = Some ds -> button ds = Right ->
  sv_pointer sv (root (screen m)) = Ok p -> sv_geometry sv (window ds) = Ok g ->
  32 <= root_x p - geo_x g + 1 - 2 * BORDER_WIDTH ->
  32 <= root_y p - geo_y g + 1 - 2 * BORDER_WIDTH ->
  exists vl,
    sent_requests m (fst (on_motion_notify sv m)) =
      [QueryPointer (root (screen m)); GetGeometry (window ds); ConfigureWindow (window ds) vl] /\
    let g' := apply_configure g vl in
    geo_x g' = geo_x g /\ geo_y g' = geo_y g /\
    geo_x g' + geo_width g' + 2 * BORDER_WIDTH - 1 = root_x p /\
    geo_y g' + geo_height g' + 2 * BORDER_WIDTH - 1 = root_y p.
Proof.
  intros Hd Hb Hp Hg Hw Hh.
  pose proof (motion_resize sv m ds Hd p g Hb Hp Hg) as Hm.
  unfold resize_target in Hm. cbn zeta in Hm.
  rewrite (proj2 (Z.leb_le _ _)) in Hm by lia.
  rewrite (proj2 (Z.leb_le 32 (root_y p - geo_y g + 1 - BORDER_WIDTH * 2))) in Hm by lia.
  cbn in Hm. destruct Hm as (Hm & _).
  eexists. split; [exact Hm|]. cbn. unfold BORDER_WIDTH. repeat split; lia.
Qed.

Lemma resize_corner_at_pointer_witness :
  exists vl,
    sent_requests (demo_manager (Some demo_resize))
      (fst (on_motion_notify (demo_server demo_attrs demo_geometry demo_pointer)
                             (demo_manager (Some demo_resize)))) =
      [QueryPointer 1; GetGeometry 7; ConfigureWindow 7 vl].
Proof.
  destruct (resize_corner_at_pointer (demo_server demo_attrs demo_geometry demo_pointer)
              (demo_manager (Some demo_resize)) demo_resize demo_pointer demo_geometry
              eq_refl eq_refl eq_refl eq_refl
              ltac:(unfold BORDER_WIDTH; cbn; lia) ltac:(unfold BORDER_WIDTH; cbn; lia))
    as (vl & Hs & _).
  exists vl. exact Hs.
Defined.



Lemma drag_for_button_window (detail child x y : Z) (ds : DragState) :
  drag_for_button detail child x y = Some ds -> window ds = child.
Proof.
  unfold drag_for_button.
  destruct (Z.eqb detail 1); [|destruct (Z.eqb detail 3)]; intros H;
    try discriminate; injection H as <-; reflexivity.
Qed.

Lemma manager_handle_session_ok (sv : Server) (m : Manager) (e : Event) :
  session_ok (drag_state m) -> session_ok (drag_state (fst (ManagerRs.handle_event e sv m))).
Proof.
  intros Hm.
  assert (Hk : forall e', (forall d s c x y, e' <> ButtonPress d s c x y) ->
                 (forall c, e' <> ButtonRelease c) ->
                 session_ok (drag_state (fst (ManagerRs.handle_event e' sv m))))
    by (intros e' H1 H2; rewrite (manager_handle_keeps_drag e' H1 H2 sv m); exact Hm).
  destruct e as [| | |detail state child rx ry| | | | | | | | | | | |];
    try (apply Hk; intros *; discriminate).
  - destruct (Z.eqb_spec child NONE) as [->|Hc].
    { cbn. destruct (Z.eqb state 0); exact Hm. }
    assert (Hc' : Z.eqb child 0 = false) by (apply Z.eqb_neq; exact Hc).
    unfold_model. unfold NONE. rewrite Hc'.
    destruct (Z.eqb state 0); cbn; [destruct (sv_flush_ok sv); exact Hm|].
    destruct (sv_geometry sv child); cbn; [|exact Hm].
    intros ds Hds. rewrite (drag_for_button_window _ _ _ _ _ Hds). exact Hc.
  - unfold_model. destruct (sv_flush_ok sv); cbn; [intros ds H; discriminate | exact Hm].
Qed.

Lemma main_handle_session_ok (sv : Server) (m : Manager) (e : Event) :
  session_ok (drag_state m) -> session_ok (drag_state (fst (MainRs.handle_event e sv m))).
Proof.
  intros Hm.
  assert (Hk : forall e', (forall d s c x y, e' <> ButtonPress d s c x y) ->
                 (forall c, e' <> ButtonRelease c) ->
                 session_ok (drag_state (fst (MainRs.handle_event e' sv m))))
    by (intros e' H1 H2; rewrite (main_handle_keeps_drag e' H1 H2 sv m); exact Hm).
  destruct e as [| | |detail state child rx ry| | | | | | | | | | | |];
    try (apply Hk; intros *; discriminate).
  - destruct (Z.eqb_spec child NONE) as [->|Hc].
    { exact Hm. }
    assert (Hc' : Z.eqb child 0 = false) by (apply Z.eqb_neq; exact Hc).
    unfold_model. unfold NONE. rewrite Hc'.
    destruct (sv_flush_ok sv); cbn; [|exact Hm].
    destruct (sv_geometry sv child); cbn; [|exact Hm].
    intros ds Hds. rewrite (drag_for_button_window _ _ _ _ _ Hds). exact Hc.
  - unfold_model. destruct (sv_flush_ok sv); cbn; [intros ds H; discriminate | exact Hm].
Qed.

Section SessionLoop.
Variable handle : Event -> M unit.
Hypothesis handle_ok : forall sv m e,
  session_ok (drag_state m) -> session_ok (drag_state (fst (handle e sv m))).

Lemma run_loop_session_ok (sv : Server) (es : list Event) (m : Manager) :
  session_ok (drag_state m) -> session_ok (drag_state (fst (run_loop handle es sv m))).
Proof.
  revert m. induction es as [|e es IH]; intros m Hm; [exact Hm|].
  cbn [run_loop]. unfold bind at 1, wait_for_event. cbn.
  set (m1 := set_conn m _).
  assert (H1 : session_ok (drag_state m1)) by exact Hm.
  pose proof (handle_ok sv m1 e H1) as H2.
  unfold bind. destruct (handle e sv m1) as [m2 [[]|err]]; cbn in *; [exact (IH m2 H2) | exact H2].
Qed.

End SessionLoop.

(** X19: a drag session never targets NONE: a session is only recorded
    for a press over a window, so in both loops, over any sequence of
    events, starting without a session (or with one on a window), every
    recorded session names a window. *)
Theorem drag_session_targets_a_window (sv : Server) (m : Manager) (es : list Event) :
  session_ok (drag_state m) ->
  session_ok (drag_state (fst (ManagerRs.run es sv m))) /\
  session_ok (drag_state (fst (MainRs.run es sv m))).
Proof.
  intros Hm. rewrite manager_run_is_loop, main_run_is_loop. split.
  - exact (run_loop_session_ok _ manager_handle_session_ok sv es m Hm).
  - exact (run_loop_session_ok _ main_handle_session_ok sv es m Hm).
Qed.

Lemma drag_session_targets_a_window_witness :
  session_ok (drag_state (fst (ManagerRs.run [ButtonPress 1 64 0 10 10; ButtonPress 3 64 5 10 10]
                                 (demo_server demo_attrs demo_geometry demo_pointer)
                                 (demo_manager None)))).
Proof.
  exact (proj1 (drag_session_targets_a_window (demo_server demo_attrs demo_geometry demo_pointer)
                  (demo_manager None) [ButtonPress 1 64 0 10 10; ButtonPress 3 64 5 10 10]
                  ltac:(intros ds H; discriminate))).
Defined.

(** X20: when the geometry reply of a modified press over a window fails,
    both loops end the handler with that error after the raise, the
    pointer grab and the geometry query have been sent; the drag session
    is left as it was (main.rs when its flush before the wait succeeds). *)
Theorem press_geometry_error (sv : Server) (m : Manager) (detail state child rx ry : Z)
    (e : XError) :
  state <> 0 -> child <> NONE -> sv_geometry sv child = Err e -> sv_flush_ok sv = true ->
  let sent := [ConfigureWindow child [CfgStackMode Above];
               GrabPointer (root (screen m))
                 [EM_BUTTON_RELEASE; EM_BUTTON_MOTION; EM_POINTER_MOTION_HINT] (root (screen m));
               GetGeometry child] in
  (let '(m', r) := ManagerRs.handle_event (ButtonPress detail state child rx ry) sv m in
   r = Err e /\ sent_requests m m' = sent /\ drag_state m' = drag_state m) /\
  (let '(m', r) := MainRs.handle_event (ButtonPress detail state child rx ry) sv m in
   r = Err e /\ sent_requests m m' = sent /\ drag_state m' = drag_state m).
Proof.
  intros Hs Hc Hg Hf sent. apply Z.eqb_neq in Hs, Hc.
  unfold_model. unfold NONE in *. rewrite Hs, Hc, Hf, Hg. cbn.
  repeat split; simpl_trace; reflexivity.
Qed.

Lemma press_geometry_error_witness :
  snd (ManagerRs.handle_event (ButtonPress 1 64 5 100 100)
         {| sv_tree := fun _ => Ok []; sv_attrs := demo_attrs;
            sv_geometry := fun _ => Err ProtocolError;
            sv_pointer := fun _ => Ok demo_pointer; sv_flush_ok := true |}
         (demo_manager None)) = Err ProtocolError.
Proof.
  pose proof (press_geometry_error
                {| sv_tree := fun _ => Ok []; sv_attrs := demo_attrs;
                   sv_geometry := fun _ => Err ProtocolError;
                   sv_pointer := fun _ => Ok demo_pointer; sv_flush_ok := true |}
                (demo_manager None) 1 64 5 100 100 ProtocolError
                ltac:(discriminate) ltac:(unfold NONE; discriminate) eq_refl eq_refl) as (H & _).
  cbv zeta in H.
  destruct (ManagerRs.handle_event (ButtonPress 1 64 5 100 100)
              {| sv_tree := fun _ => Ok []; sv_attrs := demo_attrs;
                 sv_geometry := fun _ => Err ProtocolError;
                 sv_pointer := fun _ => Ok demo_pointer; sv_flush_ok := true |}
              (demo_manager None)) as [m' r].
  exact (proj1 H).
Defined.

(** X21: during a drag, a failed pointer query or a failed geometry query
    ends the motion handler (shared by both loops) with that error before
    any configure command is sent; the drag session stays. *)
Theorem motion_reply_error (sv : Server) (m : Manager) (ds : DragState) :
  drag_state m = Some ds ->
  (forall e, sv_pointer sv (root (screen m)) = Err e ->
     let '(m', r) := on_motion_notify sv m in
     r = Err e /\ sent_requests m m' = [QueryPointer (root (screen m))] /\
     drag_state m' = drag_state m) /\
  (forall p e, sv_pointer sv (root (screen m)) = Ok p -> sv_geometry sv (window ds) = Err e ->
     let '(m', r) := on_motion_notify sv m in
     r = Err e /\ sent_requests m m' = [QueryPointer (root (screen m)); GetGeometry (window ds)] /\
     drag_state m' = drag_state m).
Proof.
  intros Hd. split.
  - intros e Hp. unfold_model. rewrite Hd. cbn. rewrite Hp. cbn.
    split; [reflexivity | split; [simpl_trace; reflexivity | exact Hd]].
  - intros p e Hp Hg. unfold_model. rewrite Hd. cbn. rewrite Hp, Hg. cbn.
    split; [reflexivity | split; [simpl_trace; reflexivity | exact Hd]].
Qed.

Lemma motion_reply_error_witness :
  snd (on_motion_notify
         {| sv_tree := fun _ => Ok []; sv_attrs := demo_attrs;
            sv_geometry := fun _ => Ok demo_geometry;
            sv_pointer := fun _ => Err ProtocolError; sv_flush_ok := true |}
         (demo_manager (Some demo_move))) = Err ProtocolError.
Proof.
  pose proof (proj1 (motion_reply_error
                       {| sv_tree := fun _ => Ok []; sv_attrs := demo_attrs;
                          sv_geometry := fun _ => Ok demo_geometry;
                          sv_pointer := fun _ => Err ProtocolError; sv_flush_ok := true |}
                       (demo_manager (Some demo_move)) demo_move eq_refl) ProtocolError eq_refl) as H.
  destruct (on_motion_notify
              {| sv_tree := fun _ => Ok []; sv_attrs := demo_attrs;
                 sv_geometry := fun _ => Ok demo_geometry;
                 sv_pointer := fun _ => Err ProtocolError; sv_flush_ok := true |}
              (demo_manager (Some demo_move))) as [m' r].
  exact (proj1 H).
Defined.
